(** * secmetrics: metric aggregation and report rendering

    A shallow embedding of [pkg/metrics/metrics.go] and
    [pkg/reporting/reporting.go].  Go's [float64] is IEEE 754 binary64 with
    round-to-nearest-even; it is modelled by the Standard Library's
    [spec_float] at precision 53 and maximal exponent 1024, so that
    division by zero, infinities and NaN behave as they do in Go. *)

From Stdlib Require Import ZArith NArith List String Ascii Bool Lia.
From Stdlib Require Import Decimal DecimalString.
From Stdlib Require Import Floats.SpecFloat.
Import ListNotations.

Local Open Scope Z_scope.
Local Open Scope string_scope.

(** ** float64 *)

Module F64.

Definition prec : Z := 53.
Definition emax : Z := 1024.

Definition float64 : Type := spec_float.

Definition add : float64 -> float64 -> float64 := SFadd prec emax.
Definition mul : float64 -> float64 -> float64 := SFmul prec emax.
Definition div : float64 -> float64 -> float64 := SFdiv prec emax.

(** Go's comparison operators on float64: every comparison with NaN is
    false, and the two zeros are equal. *)
Definition eqb (x y : float64) : bool := SFeqb x y.
Definition leb (x y : float64) : bool := SFleb x y.
Definition geb (x y : float64) : bool := SFleb y x.

(** The float64 nearest to [m * 2^e]; integer and decimal literals of the
    source that are exactly representable are written with it. *)
Definition of_Z_exp (m e : Z) : float64 := binary_normalize prec emax m e false.
Definition of_Z (m : Z) : float64 := of_Z_exp m 0.

(** float64(n) for a length [n]. *)
Definition of_nat (n : nat) : float64 := of_Z (Z.of_nat n).

Definition zero : float64 := S754_zero false.
Definition one : float64 := Eval vm_compute in of_Z 1.
Definition hundred : float64 := Eval vm_compute in of_Z 100.
Definition pinf : float64 := S754_infinity false.
Definition ninf : float64 := S754_infinity true.
Definition nan : float64 := S754_nan.

Definition is_finite (x : float64) : bool :=
  match x with
  | S754_zero _ | S754_finite _ _ _ => true
  | _ => false
  end.

(** [q * 2^n] on positive mantissas, for [n >= 0]. *)
Definition shiftl_pos (q : positive) (n : Z) : positive :=
  match n with
  | Zpos p => Pos.iter xO q p
  | _ => q
  end.

(** The value of a float64 counter that started at [0] and was
    incremented [n] times by [1.0]. *)
Definition count_up (n : nat) : float64 := Nat.iter n (fun total => add total one) zero.

End F64.

Abbreviation float64 := F64.float64.

(** ** Strings and the formatting verbs of package fmt *)

Module Fmt.

(** The line feed written [\n] in the source. *)
Definition nl : string := String (ascii_of_nat 10) EmptyString.

Definition digits_of_N (n : N) : string := NilZero.string_of_uint (N.to_uint n).

Fixpoint zeros (k : nat) : string :=
  match k with
  | O => EmptyString
  | S k' => String "0" (zeros k')
  end.

(** The strings of a list, one after the other. *)
Definition join (ls : list string) : string := fold_right append EmptyString ls.

Definition sign_string (neg : bool) : string := if neg then "-" else "".

(** The scaled value [10 * m * 2^e] of a positive finite float, rounded to
    the nearest integer, ties to even: the tenths that [%.1f] prints.
    strconv converts the binary value to its exact decimal expansion and
    rounds that, so no second rounding is involved. *)
Definition tenths (m : positive) (e : Z) : N :=
  let t := (10 * Zpos m)%Z in
  match e with
  | Zneg p =>
      let d := Z.pow_pos 2 p in
      let q := Z.div t d in
      let r := Z.modulo t d in
      match Z.compare (2 * r) d with
      | Lt => Z.to_N q
      | Eq => if Z.even q then Z.to_N q else Z.to_N (q + 1)
      | Gt => Z.to_N (q + 1)
      end
  | _ => Z.to_N (t * 2 ^ e)
  end.

(** [fmt.Sprintf("%.1f", x)]. *)
Definition Sprintf_f1 (x : float64) : string :=
  match x with
  | S754_nan => "NaN"
  | S754_infinity false => "+Inf"
  | S754_infinity true => "-Inf"
  | S754_zero s => sign_string s ++ "0.0"
  | S754_finite s m e =>
      let t := tenths m e in
      sign_string s ++ digits_of_N (N.div t 10) ++ "." ++ digits_of_N (N.modulo t 10)
  end.

(** [fmt.Sprintf("%.1f%%", x)]. *)
Definition Sprintf_f1_pct (x : float64) : string := Sprintf_f1 x ++ "%".

(** [fmt.Sprintf("%d", n)] on an int. *)
Definition Sprintf_d (n : Z) : string :=
  sign_string (n <? 0)%Z ++ digits_of_N (Z.to_N (Z.abs n)).

Definition is_digit (c : ascii) : bool :=
  let n := nat_of_ascii c in (48 <=? n)%nat && (n <=? 57)%nat.

Fixpoint all_digits (s : string) : bool :=
  match s with
  | EmptyString => true
  | String c s' => is_digit c && all_digits s'
  end.

(** A rendering with exactly one fractional digit: an optional minus sign,
    a non-empty run of digits, a point and one digit. *)
Definition one_decimal (s : string) : Prop :=
  exists (neg : bool) (ip : string) (d : ascii),
    s = sign_string neg ++ ip ++ "." ++ String d EmptyString
    /\ ip <> EmptyString /\ all_digits ip = true /\ is_digit d = true.

End Fmt.

(** ** time.Time

    The source only stamps records with [time.Now()] and prints a time with
    [Format]; a time is modelled by the calendar fields that [Format] reads
    (the results of [Date()], [Clock()] and [Nanosecond()] in the time's
    location). *)

Module Time.

Record t : Type := mk {
  Year : Z;
  Month : Z;
  Day : Z;
  Hour : Z;
  Minute : Z;
  Second : Z;
  Nanosecond : Z
}.

(** The zero value [time.Time{}]: January 1, year 1, 00:00:00 UTC. *)
Definition zero : t := mk 1 1 1 0 0 0 0.

(** [appendInt] of package time: sign, then the digits padded with zeros
    to [width]. *)
Definition appendInt (x : Z) (width : nat) : string :=
  let ds := Fmt.digits_of_N (Z.to_N (Z.abs x)) in
  Fmt.sign_string (x <? 0)%Z ++ Fmt.zeros (width - String.length ds) ++ ds.

(** [t.Format("20060102150405")]. *)
Definition Format_compact (x : t) : string :=
  appendInt (Year x) 4 ++ appendInt (Month x) 2 ++ appendInt (Day x) 2
  ++ appendInt (Hour x) 2 ++ appendInt (Minute x) 2 ++ appendInt (Second x) 2.

(** [t.Format("2006-01-02 15:04:05")]. *)
Definition Format_datetime (x : t) : string :=
  appendInt (Year x) 4 ++ "-" ++ appendInt (Month x) 2 ++ "-" ++ appendInt (Day x) 2
  ++ " " ++ appendInt (Hour x) 2 ++ ":" ++ appendInt (Minute x) 2
  ++ ":" ++ appendInt (Second x) 2.

(** The calendar date and time of day to the second, without the fraction. *)
Definition to_second (x : t) : Z * Z * Z * Z * Z * Z :=
  (Year x, Month x, Day x, Hour x, Minute x, Second x).

(** The ranges of the calendar fields of a time whose year has at most
    four digits. *)
Definition in_calendar_range (x : t) : Prop :=
  (0 <= Year x < 10000 /\ 1 <= Month x <= 12 /\ 1 <= Day x <= 31
   /\ 0 <= Hour x <= 23 /\ 0 <= Minute x <= 59 /\ 0 <= Second x <= 59)%Z.

(** The number that a string of decimal digits denotes. *)
Fixpoint digits_value (s : string) (acc : Z) : Z :=
  match s with
  | EmptyString => acc
  | String c s' => digits_value s' (10 * acc + (Z.of_nat (nat_of_ascii c) - 48))%Z
  end.

End Time.

(** ** Package metrics *)

Module Metrics.

(** [MetricType] and [KPIKey] are string types with named constants. *)
Definition MetricType : Type := string.

Definition TypeVulnerability : MetricType := "vulnerability".
Definition TypeIncident : MetricType := "incident".
Definition TypeCompliance : MetricType := "compliance".
Definition TypeDetection : MetricType := "detection".
Definition TypeResponse : MetricType := "response".
Definition TypePrevention : MetricType := "prevention".
Definition TypeTraining : MetricType := "training".
Definition TypeRisk : MetricType := "risk".

Module SecurityMetric.
Record t : Type := mk {
  ID : string;
  Name : string;
  Type_ : MetricType;
  Value : float64;
  Unit : string;
  Target : float64;
  Status : string;
  Timestamp : Time.t;
  Description : string;
  Category : string
}.

(** [metric.Timestamp = now] on the by-value parameter. *)
Definition set_Timestamp (m : t) (now : Time.t) : t :=
  mk (ID m) (Name m) (Type_ m) (Value m) (Unit m) (Target m) (Status m)
     now (Description m) (Category m).
End SecurityMetric.

Definition KPIKey : Type := string.

Module KPI.
Record t : Type := mk {
  Key : KPIKey;
  Name : string;
  Description : string;
  Value : float64;
  Target : float64;
  Unit : string;
  Status : string;
  Trend : string;
  LastUpdated : Time.t;
  Category : string
}.

Definition set_LastUpdated (k : t) (now : Time.t) : t :=
  mk (Key k) (Name k) (Description k) (Value k) (Target k) (Unit k)
     (Status k) (Trend k) now (Category k).
End KPI.

Module MetricsSummary.
Record t : Type := mk {
  TotalMetrics : Z;
  TotalKPIS : Z;
  ComplianceScore : float64;
  RiskScore : float64;
  OverallHealth : string;
  LastUpdated : Time.t
}.

(** The zero value [MetricsSummary{}]. *)
Definition zero : t := mk 0 0 F64.zero F64.zero "" Time.zero.

Definition set_TotalMetrics (s : t) (v : Z) : t :=
  mk v (TotalKPIS s) (ComplianceScore s) (RiskScore s) (OverallHealth s) (LastUpdated s).
Definition set_TotalKPIS (s : t) (v : Z) : t :=
  mk (TotalMetrics s) v (ComplianceScore s) (RiskScore s) (OverallHealth s) (LastUpdated s).
Definition set_ComplianceScore (s : t) (v : float64) : t :=
  mk (TotalMetrics s) (TotalKPIS s) v (RiskScore s) (OverallHealth s) (LastUpdated s).
Definition set_RiskScore (s : t) (v : float64) : t :=
  mk (TotalMetrics s) (TotalKPIS s) (ComplianceScore s) v (OverallHealth s) (LastUpdated s).
Definition set_OverallHealth (s : t) (v : string) : t :=
  mk (TotalMetrics s) (TotalKPIS s) (ComplianceScore s) (RiskScore s) v (LastUpdated s).
Definition set_LastUpdated (s : t) (v : Time.t) : t :=
  mk (TotalMetrics s) (TotalKPIS s) (ComplianceScore s) (RiskScore s) (OverallHealth s) v.
End MetricsSummary.

(** The collector owns its summary through a pointer that is allocated once
    and never shared with another collector; the pointee is held here. *)
Record MetricsCollector : Type := mkCollector {
  metrics : list SecurityMetric.t;
  kpis : list KPI.t;
  summary : MetricsSummary.t
}.

Definition NewMetricsCollector : MetricsCollector :=
  mkCollector [] [] MetricsSummary.zero.

Definition GetMetrics (c : MetricsCollector) : list SecurityMetric.t := metrics c.
Definition GetKPIS (c : MetricsCollector) : list KPI.t := kpis c.

(** The first KPI with the key, or [None] for the nil pointer. *)
Definition GetKPI (c : MetricsCollector) (key : KPIKey) : option KPI.t :=
  find (fun k => String.eqb (KPI.Key k) key) (kpis c).

Definition GetMetricByType (c : MetricsCollector) (metricType : MetricType)
  : list SecurityMetric.t :=
  filter (fun metric => String.eqb (SecurityMetric.Type_ metric) metricType) (metrics c).

(** The loop of [GetComplianceScore]: the state is [(total, weighted)].
    Every operation is rounded on its own, as on targets that do not fuse
    the multiplication with the addition. *)
Definition compliance_step (acc : float64 * float64) (metric : SecurityMetric.t)
  : float64 * float64 :=
  let '(total, weighted) := acc in
  (F64.add total F64.one,
   F64.add weighted
     (F64.mul (F64.div (SecurityMetric.Value metric) (SecurityMetric.Target metric))
        F64.hundred)).

Definition GetComplianceScore (c : MetricsCollector) : float64 :=
  let '(total, weighted) :=
    fold_left compliance_step (GetMetricByType c TypeCompliance) (F64.zero, F64.zero) in
  if F64.eqb total F64.zero then F64.zero else F64.div weighted total.

Definition risk_step (acc : float64 * float64) (metric : SecurityMetric.t)
  : float64 * float64 :=
  let '(total, weighted) := acc in
  (F64.add total F64.one, F64.add weighted (SecurityMetric.Value metric)).

Definition GetRiskScore (c : MetricsCollector) : float64 :=
  let '(total, weighted) :=
    fold_left risk_step (GetMetricByType c TypeRisk) (F64.zero, F64.zero) in
  if F64.eqb total F64.zero then F64.zero else F64.div weighted total.

Definition determineHealth (compliance risk : float64) : string :=
  if F64.geb compliance (F64.of_Z 90) && F64.leb risk (F64.of_Z 30) then "HEALTHY"
  else if F64.geb compliance (F64.of_Z 70) && F64.leb risk (F64.of_Z 50) then "GOOD"
  else if F64.geb compliance (F64.of_Z 50) && F64.leb risk (F64.of_Z 70) then "FAIR"
  else "POOR".

(** [updateSummary] assigns the fields of the summary one after the other;
    [now] is the reading of the clock in its last statement. *)
Definition updateSummary (c : MetricsCollector) (now : Time.t) : MetricsCollector :=
  let s := summary c in
  let s := MetricsSummary.set_TotalMetrics s (Z.of_nat (List.length (metrics c))) in
  let s := MetricsSummary.set_TotalKPIS s (Z.of_nat (List.length (kpis c))) in
  let s := MetricsSummary.set_ComplianceScore s (GetComplianceScore c) in
  let s := MetricsSummary.set_RiskScore s (GetRiskScore c) in
  let s := MetricsSummary.set_OverallHealth s
             (determineHealth (MetricsSummary.ComplianceScore s)
                (MetricsSummary.RiskScore s)) in
  let s := MetricsSummary.set_LastUpdated s now in
  mkCollector (metrics c) (kpis c) s.

(** [AddMetric] and [AddKPI] read the clock twice: once for the stamp of
    the record, once in [updateSummary]. *)
Definition AddMetric (c : MetricsCollector) (metric : SecurityMetric.t)
    (now now' : Time.t) : MetricsCollector :=
  let metric := SecurityMetric.set_Timestamp metric now in
  let c := mkCollector (metrics c ++ [metric])%list (kpis c) (summary c) in
  updateSummary c now'.

Definition AddKPI (c : MetricsCollector) (kpi : KPI.t)
    (now now' : Time.t) : MetricsCollector :=
  let kpi := KPI.set_LastUpdated kpi now in
  let c := mkCollector (metrics c) (kpis c ++ [kpi])%list (summary c) in
  updateSummary c now'.

Definition GetSummary (c : MetricsCollector) : MetricsSummary.t := summary c.

(** *** Reachable states

    A collector is built by [NewMetricsCollector] and changed by [AddMetric]
    and [AddKPI] only. *)
Inductive call : Type :=
| CallAddMetric (metric : SecurityMetric.t) (now now' : Time.t)
| CallAddKPI (kpi : KPI.t) (now now' : Time.t).

Definition perform (c : MetricsCollector) (k : call) : MetricsCollector :=
  match k with
  | CallAddMetric metric now now' => AddMetric c metric now now'
  | CallAddKPI kpi now now' => AddKPI c kpi now now'
  end.

Definition run (calls : list call) : MetricsCollector :=
  fold_left perform calls NewMetricsCollector.

(** *** The scores as the specification words them *)

(** Sum of a sequence, accumulated from the left starting at [0]. *)
Definition fsum (xs : list float64) : float64 := fold_left F64.add xs F64.zero.

(** Simple average: the sum divided by the number of elements, and [0] for
    the empty sequence. *)
Definition simple_average (xs : list float64) : float64 :=
  match xs with
  | [] => F64.zero
  | _ :: _ => F64.div (fsum xs) (F64.of_nat (List.length xs))
  end.

(** The same average with the elements counted in float64, one increment
    of [1.0] per element. *)
Definition counted_average (xs : list float64) : float64 :=
  match xs with
  | [] => F64.zero
  | _ :: _ => F64.div (fsum xs) (F64.count_up (List.length xs))
  end.

(** [(value / target) * 100] of one metric. *)
Definition percent_of_target (metric : SecurityMetric.t) : float64 :=
  F64.mul (F64.div (SecurityMetric.Value metric) (SecurityMetric.Target metric))
    F64.hundred.

(** The table of thresholds of the health tiers, in the order they are
    tried: least compliance, greatest risk, tier. *)
Definition health_table : list (Z * Z * string) :=
  [(90, 30, "HEALTHY"); (70, 50, "GOOD"); (50, 70, "FAIR")].

Definition tier_matches (compliance risk : float64) (row : Z * Z * string) : bool :=
  let '(cmin, rmax, _) := row in
  F64.geb compliance (F64.of_Z cmin) && F64.leb risk (F64.of_Z rmax).

Definition first_match (compliance risk : float64) : string :=
  match find (tier_matches compliance risk) health_table with
  | Some (_, _, tier) => tier
  | None => "POOR"
  end.

(** What it means for a summary to reflect the collections of [c]. *)
Definition counts_and_scores_current (c : MetricsCollector) : Prop :=
  MetricsSummary.TotalMetrics (GetSummary c) = Z.of_nat (List.length (metrics c))
  /\ MetricsSummary.TotalKPIS (GetSummary c) = Z.of_nat (List.length (kpis c))
  /\ MetricsSummary.ComplianceScore (GetSummary c) = GetComplianceScore c
  /\ MetricsSummary.RiskScore (GetSummary c) = GetRiskScore c.

Definition health_current (c : MetricsCollector) : Prop :=
  MetricsSummary.OverallHealth (GetSummary c)
  = determineHealth (GetComplianceScore c) (GetRiskScore c).

Definition summary_current (c : MetricsCollector) : Prop :=
  counts_and_scores_current c /\ health_current c.

(** *** Sample records

    A compliance metric with the given value and target, and a risk metric
    with the given value. *)
Definition compliance_metric (value target : float64) : SecurityMetric.t :=
  SecurityMetric.mk "m" "Policy coverage" TypeCompliance value "%" target "" Time.zero "" "".

Definition risk_metric (value : float64) : SecurityMetric.t :=
  SecurityMetric.mk "r" "Exposure" TypeRisk value "" F64.zero "" Time.zero "" "".

(** *** Means, rates and the text report *)

Definition CalculateMTTR (responseTimes : list float64) : float64 :=
  if (List.length responseTimes =? 0)%nat then F64.zero
  else
    let total := fold_left (fun total time => F64.add total time) responseTimes F64.zero in
    F64.div total (F64.of_nat (List.length responseTimes)).

Definition CalculateMTTD (detectionTimes : list float64) : float64 :=
  if (List.length detectionTimes =? 0)%nat then F64.zero
  else
    let total := fold_left (fun total time => F64.add total time) detectionTimes F64.zero in
    F64.div total (F64.of_nat (List.length detectionTimes)).

Definition CalculateMTTC (containmentTimes : list float64) : float64 :=
  if (List.length containmentTimes =? 0)%nat then F64.zero
  else
    let total := fold_left (fun total time => F64.add total time) containmentTimes F64.zero in
    F64.div total (F64.of_nat (List.length containmentTimes)).

(** The arguments of the three rates are Go ints. *)
Definition CalculateCoverage (covered total : Z) : float64 :=
  if (total =? 0)%Z then F64.zero
  else F64.mul (F64.div (F64.of_Z covered) (F64.of_Z total)) F64.hundred.

Definition CalculateRemediationRate (remediated total : Z) : float64 :=
  if (total =? 0)%Z then F64.zero
  else F64.mul (F64.div (F64.of_Z remediated) (F64.of_Z total)) F64.hundred.

Definition CalculateDetectionRate (detected total : Z) : float64 :=
  if (total =? 0)%Z then F64.zero
  else F64.mul (F64.div (F64.of_Z detected) (F64.of_Z total)) F64.hundred.

(** The body of the loop over the KPIs in [GenerateReport]; the state is
    the index [i] and the text so far. *)
Definition report_kpi_step (acc : Z * string) (kpi : KPI.t) : Z * string :=
  let '(i, report) := acc in
  let report := report ++ "  [" ++ Fmt.Sprintf_d (i + 1) ++ "] " ++ KPI.Name kpi ++ Fmt.nl in
  let report :=
    report ++ "      Value: " ++ Fmt.Sprintf_f1 (KPI.Value kpi) ++ " " ++ KPI.Unit kpi ++ Fmt.nl in
  let report :=
    report ++ "      Target: " ++ Fmt.Sprintf_f1 (KPI.Target kpi) ++ " " ++ KPI.Unit kpi ++ Fmt.nl in
  let report := report ++ "      Status: " ++ KPI.Status kpi ++ Fmt.nl in
  let report := report ++ "      Trend: " ++ KPI.Trend kpi ++ Fmt.nl ++ Fmt.nl in
  (i + 1, report).

Definition report_type_step (c : MetricsCollector) (report : string)
    (metricType : MetricType) : string :=
  let metrics := GetMetricByType c metricType in
  if (0 <? List.length metrics)%nat then
    report ++ "  " ++ metricType ++ ": "
    ++ Fmt.Sprintf_d (Z.of_nat (List.length metrics)) ++ " metrics" ++ Fmt.nl
  else report.

Definition GenerateReport (c : MetricsCollector) : string :=
  let report := "" in
  let report := report ++ "=== Security Metrics Report ===" ++ Fmt.nl ++ Fmt.nl in
  let summary := GetSummary c in
  let report :=
    report ++ "Overall Health: " ++ MetricsSummary.OverallHealth summary ++ Fmt.nl in
  let report :=
    report ++ "Compliance Score: "
    ++ Fmt.Sprintf_f1_pct (MetricsSummary.ComplianceScore summary) ++ Fmt.nl in
  let report :=
    report ++ "Risk Score: " ++ Fmt.Sprintf_f1 (MetricsSummary.RiskScore summary) ++ Fmt.nl in
  let report :=
    report ++ "Total Metrics: " ++ Fmt.Sprintf_d (MetricsSummary.TotalMetrics summary)
    ++ Fmt.nl in
  let report :=
    report ++ "Total KPIs: " ++ Fmt.Sprintf_d (MetricsSummary.TotalKPIS summary)
    ++ Fmt.nl ++ Fmt.nl in
  let report :=
    if (0 <? List.length (kpis c))%nat then
      let report := report ++ "Key Performance Indicators:" ++ Fmt.nl in
      snd (fold_left report_kpi_step (kpis c) (0, report))
    else report in
  let report := report ++ "Metrics by Type:" ++ Fmt.nl in
  fold_left (report_type_step c) [TypeVulnerability; TypeIncident; TypeCompliance] report.

Definition KPI_MTTR : KPIKey := "mttr".
Definition KPI_MTTC : KPIKey := "mttc".
Definition KPI_MTTD : KPIKey := "mttd".
Definition KPI_Coverage : KPIKey := "coverage".
Definition KPI_Compliance : KPIKey := "compliance".
Definition KPI_RemediationRate : KPIKey := "remediation_rate".
Definition KPI_DetectionRate : KPIKey := "detection_rate".
Definition KPI_ResponseTime : KPIKey := "response_time".

Definition GetCommonKPIs : list KPI.t :=
  [ KPI.mk KPI_MTTR "Mean Time to Respond (MTTR)"
      "Average time to respond to security incidents"
      (F64.of_Z_exp 5 (-1)) (F64.of_Z 1) "hours" "BELOW_TARGET" "IMPROVING"
      Time.zero "Response";
    KPI.mk KPI_MTTC "Mean Time to Contain (MTTC)"
      "Average time to contain security incidents"
      (F64.of_Z 4) (F64.of_Z 2) "hours" "BELOW_TARGET" "STABLE" Time.zero "Response";
    KPI.mk KPI_MTTD "Mean Time to Detect (MTTD)"
      "Average time to detect security incidents"
      (F64.of_Z_exp 1 (-1)) (F64.of_Z_exp 1 (-2)) "hours" "BELOW_TARGET" "IMPROVING"
      Time.zero "Detection";
    KPI.mk KPI_Coverage "Security Coverage"
      "Percentage of assets with security controls"
      (F64.of_Z 85) (F64.of_Z 100) "%" "BELOW_TARGET" "IMPROVING" Time.zero "Prevention";
    KPI.mk KPI_Compliance "Compliance Score"
      "Overall compliance with security policies"
      (F64.of_Z 92) (F64.of_Z 100) "%" "BELOW_TARGET" "STABLE" Time.zero "Compliance";
    KPI.mk KPI_RemediationRate "Vulnerability Remediation Rate"
      "Percentage of vulnerabilities remediated within SLA"
      (F64.of_Z 78) (F64.of_Z 95) "%" "BELOW_TARGET" "IMPROVING" Time.zero "Remediation" ].

(** The metrics and the KPIs that a sequence of calls hands over, each
    with the stamp of its call. *)
Definition metrics_of_calls (calls : list call) : list SecurityMetric.t :=
  flat_map (fun k => match k with
                     | CallAddMetric metric now _ => [SecurityMetric.set_Timestamp metric now]
                     | CallAddKPI _ _ _ => []
                     end) calls.

Definition kpis_of_calls (calls : list call) : list KPI.t :=
  flat_map (fun k => match k with
                     | CallAddMetric _ _ _ => []
                     | CallAddKPI kpi now _ => [KPI.set_LastUpdated kpi now]
                     end) calls.


(** The health tiers from best to worst, as a rank. *)
Definition tier_rank (tier : string) : nat :=
  if String.eqb tier "HEALTHY" then 3
  else if String.eqb tier "GOOD" then 2
  else if String.eqb tier "FAIR" then 1
  else 0.

Definition is_AddKPI (k : call) : bool :=
  match k with
  | CallAddKPI _ _ _ => true
  | CallAddMetric _ _ _ => false
  end.

End Metrics.

(** ** Package reporting *)

Module Reporting.

Definition ReportFormat : Type := string.

Definition FormatJSON : ReportFormat := "json".
Definition FormatYAML : ReportFormat := "yaml".
Definition FormatMarkdown : ReportFormat := "markdown".
Definition FormatHTML : ReportFormat := "html".
Definition FormatCSV : ReportFormat := "csv".

Module MetricData.
Record t : Type := mk {
  Name : string;
  Type_ : string;
  Value : float64;
  Target : float64;
  Status : string;
  Trend : string;
  Timestamp : Time.t
}.
End MetricData.

Module KPIData.
Record t : Type := mk {
  Key : string;
  Name : string;
  Value : float64;
  Target : float64;
  Status : string;
  Trend : string;
  Unit : string;
  Category : string
}.
End KPIData.

Module ExecutiveSummary.
Record t : Type := mk {
  OverallHealth : string;
  ComplianceScore : float64;
  RiskScore : float64;
  TopConcerns : list string;
  TopAchievements : list string;
  Recommendations : list string;
  ActionItems : list string
}.

(** The zero value [ExecutiveSummary{}]; a nil slice is the empty list. *)
Definition zero : t := mk "" F64.zero F64.zero [] [] [] [].
End ExecutiveSummary.

Module TechnicalSummary.
Record t : Type := mk {
  MetricsCovered : Z;
  KPIsTracked : Z;
  AlertsActive : Z;
  IncidentsLastMonth : Z;
  VulnerabilitiesOpen : Z;
  ComplianceStatus : string;
  DetectionRate : float64;
  ResponseTime : float64
}.

Definition zero : t := mk 0 0 0 0 0 "" F64.zero F64.zero.
End TechnicalSummary.

Module Report.
Record t : Type := mk {
  ID : string;
  Title : string;
  Description : string;
  Format : ReportFormat;
  CreatedAt : Time.t;
  Metrics : list MetricData.t;
  KPIS : list KPIData.t;
  Executive : ExecutiveSummary.t;
  Technical : TechnicalSummary.t;
  Recommendations : list string
}.

Definition set_Metrics (r : t) (v : list MetricData.t) : t :=
  mk (ID r) (Title r) (Description r) (Format r) (CreatedAt r) v (KPIS r)
     (Executive r) (Technical r) (Recommendations r).
Definition set_KPIS (r : t) (v : list KPIData.t) : t :=
  mk (ID r) (Title r) (Description r) (Format r) (CreatedAt r) (Metrics r) v
     (Executive r) (Technical r) (Recommendations r).
Definition set_Executive (r : t) (v : ExecutiveSummary.t) : t :=
  mk (ID r) (Title r) (Description r) (Format r) (CreatedAt r) (Metrics r) (KPIS r)
     v (Technical r) (Recommendations r).
Definition set_Technical (r : t) (v : TechnicalSummary.t) : t :=
  mk (ID r) (Title r) (Description r) (Format r) (CreatedAt r) (Metrics r) (KPIS r)
     (Executive r) v (Recommendations r).
End Report.

Record ReportGenerator : Type := mkGenerator {
  reports : list Report.t
}.

Definition NewReportGenerator : ReportGenerator := mkGenerator [].

(** [GenerateReport] reads the clock twice, for the id and for
    [CreatedAt]; it stores a copy of the new report in the registry and
    returns the report. *)
Definition GenerateReport (g : ReportGenerator) (title description : string)
    (format : ReportFormat) (now now' : Time.t) : ReportGenerator * Report.t :=
  let report :=
    Report.mk ("rpt-" ++ Time.Format_compact now) title description format now'
      [] [] ExecutiveSummary.zero TechnicalSummary.zero [] in
  (mkGenerator (reports g ++ [report])%list, report).

(** The loop shared by the four setters: the first report whose id is
    [reportID] is changed by [f], then the loop breaks. *)
Fixpoint modify_first (reportID : string) (f : Report.t -> Report.t)
    (rs : list Report.t) : list Report.t :=
  match rs with
  | [] => []
  | r :: rs' =>
      if String.eqb (Report.ID r) reportID then f r :: rs'
      else r :: modify_first reportID f rs'
  end.

Definition AddMetric (g : ReportGenerator) (reportID : string)
    (metric : MetricData.t) : ReportGenerator :=
  mkGenerator
    (modify_first reportID
       (fun r => Report.set_Metrics r (Report.Metrics r ++ [metric])%list)
       (reports g)).

Definition AddKPI (g : ReportGenerator) (reportID : string)
    (kpi : KPIData.t) : ReportGenerator :=
  mkGenerator
    (modify_first reportID
       (fun r => Report.set_KPIS r (Report.KPIS r ++ [kpi])%list)
       (reports g)).

Definition SetExecutiveSummary (g : ReportGenerator) (reportID : string)
    (summary : ExecutiveSummary.t) : ReportGenerator :=
  mkGenerator (modify_first reportID (fun r => Report.set_Executive r summary) (reports g)).

Definition SetTechnicalSummary (g : ReportGenerator) (reportID : string)
    (summary : TechnicalSummary.t) : ReportGenerator :=
  mkGenerator (modify_first reportID (fun r => Report.set_Technical r summary) (reports g)).

(** The report the returned pointer points to, or [None] for nil. *)
Definition GetReport (g : ReportGenerator) (reportID : string) : option Report.t :=
  find (fun r => String.eqb (Report.ID r) reportID) (reports g).

Definition GetReports (g : ReportGenerator) : list Report.t := reports g.

Definition GenerateMarkdownReport (report : Report.t) : string :=
  let reportStr := "" in
  let reportStr := reportStr ++ "# Security Metrics Report" ++ Fmt.nl ++ Fmt.nl in
  let reportStr := reportStr ++ "**Report ID:** " ++ Report.ID report ++ Fmt.nl ++ Fmt.nl in
  let reportStr := reportStr ++ "**Title:** " ++ Report.Title report ++ Fmt.nl in
  let reportStr :=
    reportStr ++ "**Created:** " ++ Time.Format_datetime (Report.CreatedAt report)
    ++ Fmt.nl ++ Fmt.nl in
  let reportStr := reportStr ++ "## Executive Summary" ++ Fmt.nl ++ Fmt.nl in
  let reportStr := reportStr ++ "| Metric | Value |" ++ Fmt.nl in
  let reportStr := reportStr ++ "|--------|-------|" ++ Fmt.nl in
  let reportStr :=
    reportStr ++ "| Overall Health | "
    ++ ExecutiveSummary.OverallHealth (Report.Executive report) ++ " |" ++ Fmt.nl in
  let reportStr :=
    reportStr ++ "| Compliance Score | "
    ++ Fmt.Sprintf_f1_pct (ExecutiveSummary.ComplianceScore (Report.Executive report))
    ++ " |" ++ Fmt.nl in
  let reportStr :=
    reportStr ++ "| Risk Score | "
    ++ Fmt.Sprintf_f1 (ExecutiveSummary.RiskScore (Report.Executive report))
    ++ " |" ++ Fmt.nl ++ Fmt.nl in
  reportStr.

Definition GenerateCSVReport (report : Report.t) : string :=
  let reportStr := "" in
  let reportStr := reportStr ++ "Metric Name,Value,Target,Status,Trend" ++ Fmt.nl in
  fold_left
    (fun reportStr metric =>
       reportStr ++ MetricData.Name metric ++ ","
       ++ Fmt.Sprintf_f1 (MetricData.Value metric) ++ ","
       ++ Fmt.Sprintf_f1 (MetricData.Target metric) ++ ","
       ++ MetricData.Status metric ++ "," ++ MetricData.Trend metric ++ Fmt.nl)
    (Report.Metrics report) reportStr.

(** *** The renderings as the specification words them *)

Definition md_bold_line (label value : string) : string :=
  "**" ++ label ++ ":** " ++ value ++ Fmt.nl.

Definition md_row (cells : string * string) : string :=
  "| " ++ fst cells ++ " | " ++ snd cells ++ " |" ++ Fmt.nl.

(** A two-column table: header row, separator row, then the data rows. *)
Definition md_table (header : string * string) (rows : list (string * string)) : string :=
  md_row header ++ "|--------|-------|" ++ Fmt.nl ++ Fmt.join (map md_row rows).

Definition md_summary_rows (report : Report.t) : list (string * string) :=
  [ ("Overall Health", ExecutiveSummary.OverallHealth (Report.Executive report));
    ("Compliance Score",
     Fmt.Sprintf_f1 (ExecutiveSummary.ComplianceScore (Report.Executive report)) ++ "%");
    ("Risk Score", Fmt.Sprintf_f1 (ExecutiveSummary.RiskScore (Report.Executive report))) ].

Definition csv_header : string := "Metric Name,Value,Target,Status,Trend" ++ Fmt.nl.

Definition csv_row (metric : MetricData.t) : string :=
  String.concat ","
    [ MetricData.Name metric; Fmt.Sprintf_f1 (MetricData.Value metric);
      Fmt.Sprintf_f1 (MetricData.Target metric); MetricData.Status metric;
      MetricData.Trend metric ] ++ Fmt.nl.

(** A report with other line items attached and everything else kept. *)
Definition with_line_items (report : Report.t) (ms : list MetricData.t)
    (ks : list KPIData.t) : Report.t :=
  Report.set_KPIS (Report.set_Metrics report ms) ks.

Definition ids (g : ReportGenerator) : list string := map Report.ID (reports g).

(** *** Sample records *)
Definition sample_time : Time.t := Time.mk 2026 10 31 12 0 0 100.
Definition sample_time_later : Time.t := Time.mk 2026 10 31 12 0 0 900000.

Definition sample_metric : MetricData.t :=
  MetricData.mk "Vulnerabilities Open" "count" (F64.of_Z 45) (F64.of_Z 20)
    "ABOVE_TARGET" "IMPROVING" Time.zero.

Definition sample_kpi : KPIData.t :=
  KPIData.mk "mttr" "MTTR" (F64.of_Z_exp 5 (-1)) (F64.of_Z 1) "BELOW_TARGET"
    "IMPROVING" "hours" "Response".

Definition sample_report : Report.t :=
  Report.mk "rpt-20261031120000" "Weekly" "" FormatMarkdown sample_time
    [sample_metric] [sample_kpi]
    (ExecutiveSummary.mk "GOOD" (F64.of_Z 92) (F64.of_Z_exp 91 (-1)) [] [] [] [])
    TechnicalSummary.zero [].

(** *** The other renderings *)

(** The body of the four numbered lists of the executive report. *)
Definition numbered_step (acc : Z * string) (item : string) : Z * string :=
  let '(i, reportStr) := acc in
  (i + 1, reportStr ++ "  [" ++ Fmt.Sprintf_d (i + 1) ++ "] " ++ item ++ Fmt.nl).

Definition GenerateExecutiveReport (report : Report.t) : string :=
  let reportStr := "" in
  let reportStr :=
    reportStr ++ "=== Executive Security Metrics Report ===" ++ Fmt.nl ++ Fmt.nl in
  let reportStr := reportStr ++ "Report ID: " ++ Report.ID report ++ Fmt.nl in
  let reportStr := reportStr ++ "Title: " ++ Report.Title report ++ Fmt.nl in
  let reportStr :=
    reportStr ++ "Created: " ++ Time.Format_datetime (Report.CreatedAt report)
    ++ Fmt.nl ++ Fmt.nl in
  let reportStr := reportStr ++ "Executive Summary" ++ Fmt.nl in
  let reportStr := reportStr ++ "=================" ++ Fmt.nl ++ Fmt.nl in
  let reportStr :=
    reportStr ++ "Overall Health: "
    ++ ExecutiveSummary.OverallHealth (Report.Executive report) ++ Fmt.nl in
  let reportStr :=
    reportStr ++ "Compliance Score: "
    ++ Fmt.Sprintf_f1_pct (ExecutiveSummary.ComplianceScore (Report.Executive report))
    ++ Fmt.nl in
  let reportStr :=
    reportStr ++ "Risk Score: "
    ++ Fmt.Sprintf_f1 (ExecutiveSummary.RiskScore (Report.Executive report))
    ++ Fmt.nl ++ Fmt.nl in
  let reportStr :=
    if (0 <? List.length (ExecutiveSummary.TopConcerns (Report.Executive report)))%nat then
      let reportStr := reportStr ++ "Top Concerns:" ++ Fmt.nl in
      let reportStr :=
        snd (fold_left numbered_step
               (ExecutiveSummary.TopConcerns (Report.Executive report)) (0, reportStr)) in
      reportStr ++ Fmt.nl
    else reportStr in
  let reportStr :=
    if (0 <? List.length (ExecutiveSummary.TopAchievements (Report.Executive report)))%nat then
      let reportStr := reportStr ++ "Top Achievements:" ++ Fmt.nl in
      let reportStr :=
        snd (fold_left numbered_step
               (ExecutiveSummary.TopAchievements (Report.Executive report)) (0, reportStr)) in
      reportStr ++ Fmt.nl
    else reportStr in
  let reportStr :=
    if (0 <? List.length (ExecutiveSummary.Recommendations (Report.Executive report)))%nat then
      let reportStr := reportStr ++ "Recommendations:" ++ Fmt.nl in
      let reportStr :=
        snd (fold_left numbered_step
               (ExecutiveSummary.Recommendations (Report.Executive report)) (0, reportStr)) in
      reportStr ++ Fmt.nl
    else reportStr in
  let reportStr :=
    if (0 <? List.length (ExecutiveSummary.ActionItems (Report.Executive report)))%nat then
      let reportStr := reportStr ++ "Action Items:" ++ Fmt.nl in
      snd (fold_left numbered_step
             (ExecutiveSummary.ActionItems (Report.Executive report)) (0, reportStr))
    else reportStr in
  reportStr.

Definition technical_metric_step (acc : Z * string) (metric : MetricData.t) : Z * string :=
  let '(i, reportStr) := acc in
  let reportStr :=
    reportStr ++ "  [" ++ Fmt.Sprintf_d (i + 1) ++ "] " ++ MetricData.Name metric ++ Fmt.nl in
  let reportStr :=
    reportStr ++ "      Value: " ++ Fmt.Sprintf_f1 (MetricData.Value metric) ++ " "
    ++ MetricData.Type_ metric ++ Fmt.nl in
  let reportStr :=
    reportStr ++ "      Target: " ++ Fmt.Sprintf_f1 (MetricData.Target metric) ++ " "
    ++ MetricData.Type_ metric ++ Fmt.nl in
  let reportStr := reportStr ++ "      Status: " ++ MetricData.Status metric ++ Fmt.nl in
  let reportStr :=
    reportStr ++ "      Trend: " ++ MetricData.Trend metric ++ Fmt.nl ++ Fmt.nl in
  (i + 1, reportStr).

Definition technical_kpi_step (acc : Z * string) (kpi : KPIData.t) : Z * string :=
  let '(i, reportStr) := acc in
  let reportStr :=
    reportStr ++ "  [" ++ Fmt.Sprintf_d (i + 1) ++ "] " ++ KPIData.Name kpi ++ Fmt.nl in
  let reportStr :=
    reportStr ++ "      Value: " ++ Fmt.Sprintf_f1 (KPIData.Value kpi) ++ " "
    ++ KPIData.Unit kpi ++ Fmt.nl in
  let reportStr :=
    reportStr ++ "      Target: " ++ Fmt.Sprintf_f1 (KPIData.Target kpi) ++ " "
    ++ KPIData.Unit kpi ++ Fmt.nl in
  let reportStr := reportStr ++ "      Status: " ++ KPIData.Status kpi ++ Fmt.nl in
  let reportStr := reportStr ++ "      Trend: " ++ KPIData.Trend kpi ++ Fmt.nl in
  let reportStr :=
    reportStr ++ "      Category: " ++ KPIData.Category kpi ++ Fmt.nl ++ Fmt.nl in
  (i + 1, reportStr).

Definition GenerateTechnicalReport (report : Report.t) : string :=
  let reportStr := "" in
  let reportStr :=
    reportStr ++ "=== Technical Security Metrics Report ===" ++ Fmt.nl ++ Fmt.nl in
  let reportStr := reportStr ++ "Report ID: " ++ Report.ID report ++ Fmt.nl ++ Fmt.nl in
  let reportStr := reportStr ++ "Technical Summary" ++ Fmt.nl in
  let reportStr := reportStr ++ "=================" ++ Fmt.nl ++ Fmt.nl in
  let reportStr :=
    reportStr ++ "Metrics Covered: "
    ++ Fmt.Sprintf_d (TechnicalSummary.MetricsCovered (Report.Technical report)) ++ Fmt.nl in
  let reportStr :=
    reportStr ++ "KPIs Tracked: "
    ++ Fmt.Sprintf_d (TechnicalSummary.KPIsTracked (Report.Technical report)) ++ Fmt.nl in
  let reportStr :=
    reportStr ++ "Active Alerts: "
    ++ Fmt.Sprintf_d (TechnicalSummary.AlertsActive (Report.Technical report)) ++ Fmt.nl in
  let reportStr :=
    reportStr ++ "Incidents (Last Month): "
    ++ Fmt.Sprintf_d (TechnicalSummary.IncidentsLastMonth (Report.Technical report))
    ++ Fmt.nl in
  let reportStr :=
    reportStr ++ "Open Vulnerabilities: "
    ++ Fmt.Sprintf_d (TechnicalSummary.VulnerabilitiesOpen (Report.Technical report))
    ++ Fmt.nl in
  let reportStr :=
    reportStr ++ "Compliance Status: "
    ++ TechnicalSummary.ComplianceStatus (Report.Technical report) ++ Fmt.nl in
  let reportStr :=
    reportStr ++ "Detection Rate: "
    ++ Fmt.Sprintf_f1_pct (TechnicalSummary.DetectionRate (Report.Technical report))
    ++ Fmt.nl in
  let reportStr :=
    reportStr ++ "Response Time: "
    ++ Fmt.Sprintf_f1 (TechnicalSummary.ResponseTime (Report.Technical report))
    ++ " hours" ++ Fmt.nl ++ Fmt.nl in
  let reportStr :=
    if (0 <? List.length (Report.Metrics report))%nat then
      let reportStr := reportStr ++ "Security Metrics:" ++ Fmt.nl in
      snd (fold_left technical_metric_step (Report.Metrics report) (0, reportStr))
    else reportStr in
  let reportStr :=
    if (0 <? List.length (Report.KPIS report))%nat then
      let reportStr := reportStr ++ "Key Performance Indicators:" ++ Fmt.nl in
      snd (fold_left technical_kpi_step (Report.KPIS report) (0, reportStr))
    else reportStr in
  reportStr.

Definition GetCommonMetrics : list MetricData.t :=
  [ MetricData.mk "Vulnerabilities Open" "count" (F64.of_Z 45) (F64.of_Z 20)
      "ABOVE_TARGET" "IMPROVING" Time.zero;
    MetricData.mk "Critical Vulnerabilities" "count" (F64.of_Z 3) (F64.of_Z 0)
      "ABOVE_TARGET" "STABLE" Time.zero;
    MetricData.mk "Security Patches Applied" "percentage" (F64.of_Z 92) (F64.of_Z 100)
      "BELOW_TARGET" "IMPROVING" Time.zero;
    MetricData.mk "Security Training Completion" "percentage" (F64.of_Z 87) (F64.of_Z 100)
      "BELOW_TARGET" "IMPROVING" Time.zero ].

(** *** The numbered lists as one block per item *)

(** The items of a list with their one-based positions. *)
Definition numbered {A : Type} (xs : list A) : list (Z * A) :=
  combine (map Z.of_nat (seq 1 (List.length xs))) xs.

Definition numbered_line (entry : Z * string) : string :=
  "  [" ++ Fmt.Sprintf_d (fst entry) ++ "] " ++ snd entry ++ Fmt.nl.

(** A titled numbered list followed by [trailer], omitted when empty. *)
Definition numbered_section (title : string) (items : list string) (trailer : string)
  : string :=
  match items with
  | [] => ""
  | _ :: _ => title ++ Fmt.nl ++ Fmt.join (map numbered_line (numbered items)) ++ trailer
  end.

Definition technical_metric_block (entry : Z * MetricData.t) : string :=
  let '(i, metric) := entry in
  "  [" ++ Fmt.Sprintf_d i ++ "] " ++ MetricData.Name metric ++ Fmt.nl
  ++ "      Value: " ++ Fmt.Sprintf_f1 (MetricData.Value metric) ++ " "
  ++ MetricData.Type_ metric ++ Fmt.nl
  ++ "      Target: " ++ Fmt.Sprintf_f1 (MetricData.Target metric) ++ " "
  ++ MetricData.Type_ metric ++ Fmt.nl
  ++ "      Status: " ++ MetricData.Status metric ++ Fmt.nl
  ++ "      Trend: " ++ MetricData.Trend metric ++ Fmt.nl ++ Fmt.nl.

Definition technical_kpi_block (entry : Z * KPIData.t) : string :=
  let '(i, kpi) := entry in
  "  [" ++ Fmt.Sprintf_d i ++ "] " ++ KPIData.Name kpi ++ Fmt.nl
  ++ "      Value: " ++ Fmt.Sprintf_f1 (KPIData.Value kpi) ++ " " ++ KPIData.Unit kpi ++ Fmt.nl
  ++ "      Target: " ++ Fmt.Sprintf_f1 (KPIData.Target kpi) ++ " " ++ KPIData.Unit kpi
  ++ Fmt.nl
  ++ "      Status: " ++ KPIData.Status kpi ++ Fmt.nl
  ++ "      Trend: " ++ KPIData.Trend kpi ++ Fmt.nl
  ++ "      Category: " ++ KPIData.Category kpi ++ Fmt.nl ++ Fmt.nl.

(** A titled sequence of numbered blocks, omitted when there is no item. *)
Definition titled_blocks {A : Type} (title : string) (block : Z * A -> string)
    (items : list A) : string :=
  match items with
  | [] => ""
  | _ :: _ => title ++ Fmt.nl ++ Fmt.join (map block (numbered items))
  end.

(** The report with the four lists of its executive summary emptied. *)
Definition executive_head (report : Report.t) : Report.t :=
  Report.set_Executive report
    (ExecutiveSummary.mk
       (ExecutiveSummary.OverallHealth (Report.Executive report))
       (ExecutiveSummary.ComplianceScore (Report.Executive report))
       (ExecutiveSummary.RiskScore (Report.Executive report)) [] [] [] []).

(** A report without line items and with zero-valued summaries, as
    [GenerateReport] creates it. *)
Definition blank_report (id title description : string) (format : ReportFormat)
    (created : Time.t) : Report.t :=
  Report.mk id title description format created [] [] ExecutiveSummary.zero
    TechnicalSummary.zero [].

End Reporting.

(** ** The command [report] of the command line

    [generateReport] of package main.  The clock is read once per call of
    [time.Now()]; [clock k] is the reading of the call number [k].  What the
    function prints is returned as one string, together with the generator
    it filled. *)

Module Main.

Definition Clock : Type := nat -> Time.t.

(** [for _, kpi := range commonKPIS { collector.AddKPI(kpi) }], with the
    number of clock readings so far. *)
Definition add_kpi_step (clock : Clock) (acc : Metrics.MetricsCollector * nat)
    (kpi : Metrics.KPI.t) : Metrics.MetricsCollector * nat :=
  let '(collector, tick) := acc in
  (Metrics.AddKPI collector kpi (clock tick) (clock (S tick)), S (S tick)).

Definition kpi_line_item (kpi : Metrics.KPI.t) : Reporting.KPIData.t :=
  Reporting.KPIData.mk (Metrics.KPI.Key kpi) (Metrics.KPI.Name kpi) (Metrics.KPI.Value kpi)
    (Metrics.KPI.Target kpi) (Metrics.KPI.Status kpi) (Metrics.KPI.Trend kpi)
    (Metrics.KPI.Unit kpi) (Metrics.KPI.Category kpi).

Definition generateReport (clock : Clock) (reportType : string)
  : string * Reporting.ReportGenerator :=
  let out := "Generating " ++ reportType ++ " Report" ++ Fmt.nl in
  let out := out ++ Fmt.nl in
  let collector := Metrics.NewMetricsCollector in
  let commonKPIS := Metrics.GetCommonKPIs in
  let '(collector, tick) := fold_left (add_kpi_step clock) commonKPIS (collector, O) in
  let generator := Reporting.NewReportGenerator in
  let '(generator, report) :=
    Reporting.GenerateReport generator "Security Metrics Report"
      "Comprehensive security metrics report" Reporting.FormatMarkdown
      (clock tick) (clock (S tick)) in
  (* the two assignments go through the returned pointer, not the registry *)
  let report :=
    Reporting.Report.set_Executive report
      (Reporting.ExecutiveSummary.mk
         (Metrics.MetricsSummary.OverallHealth (Metrics.GetSummary collector))
         (Metrics.MetricsSummary.ComplianceScore (Metrics.GetSummary collector))
         (Metrics.MetricsSummary.RiskScore (Metrics.GetSummary collector))
         ["Vulnerability remediation rate below target";
          "Security coverage needs improvement"]
         ["MTTD improved by 20%"; "Compliance score at 92%"]
         ["Increase security automation"; "Expand security monitoring coverage"]
         ["Address critical vulnerabilities"; "Complete security training"]) in
  let report :=
    Reporting.Report.set_Technical report
      (Reporting.TechnicalSummary.mk 6 6 12 23 45 "COMPLIANT" (F64.of_Z 95)
         (F64.of_Z_exp 5 (-1))) in
  let generator :=
    fold_left
      (fun generator metric =>
         Reporting.AddMetric generator (Reporting.Report.ID report) metric)
      Reporting.GetCommonMetrics generator in
  let generator :=
    fold_left
      (fun generator kpi =>
         Reporting.AddKPI generator (Reporting.Report.ID report) (kpi_line_item kpi))
      commonKPIS generator in
  let rendered :=
    if String.eqb reportType "executive" then Reporting.GenerateExecutiveReport report
    else if String.eqb reportType "technical" then Reporting.GenerateTechnicalReport report
    else if String.eqb reportType "markdown" then Reporting.GenerateMarkdownReport report
    else Reporting.GenerateTechnicalReport report in
  (out ++ rendered ++ Fmt.nl, generator).

(** The report that [generateReport] renders, and the copy of it that the
    registry holds at the end. *)
Definition printed_report (clock : Clock) : Reporting.Report.t :=
  Reporting.Report.mk ("rpt-" ++ Time.Format_compact (clock 12%nat))
    "Security Metrics Report" "Comprehensive security metrics report"
    Reporting.FormatMarkdown (clock 13%nat) [] []
    (Reporting.ExecutiveSummary.mk "POOR" F64.zero F64.zero
       ["Vulnerability remediation rate below target";
        "Security coverage needs improvement"]
       ["MTTD improved by 20%"; "Compliance score at 92%"]
       ["Increase security automation"; "Expand security monitoring coverage"]
       ["Address critical vulnerabilities"; "Complete security training"])
    (Reporting.TechnicalSummary.mk 6 6 12 23 45 "COMPLIANT" (F64.of_Z 95)
       (F64.of_Z_exp 5 (-1))) [].

Definition stored_report (clock : Clock) : Reporting.Report.t :=
  Reporting.Report.mk ("rpt-" ++ Time.Format_compact (clock 12%nat))
    "Security Metrics Report" "Comprehensive security metrics report"
    Reporting.FormatMarkdown (clock 13%nat) Reporting.GetCommonMetrics
    (map kpi_line_item Metrics.GetCommonKPIs)
    Reporting.ExecutiveSummary.zero Reporting.TechnicalSummary.zero [].

End Main.

(** * Properties *)

(** ** Exact counting in float64

    Incrementing a float64 by [1.0] is exact up to [2^53]; this is what
    makes the float counter of the scoring loops equal to the number of
    metrics visited. *)

Module F64Facts.

Local Close Scope string_scope.

Lemma iter_xO_Z q p : Zpos (Pos.iter xO q p) = Zpos q * 2 ^ Zpos p.
Proof.
  induction p as [|p IH] using Pos.peano_ind.
  - simpl. lia.
  - rewrite Pos.iter_succ, Pos2Z.inj_succ, Z.pow_succ_r by lia.
    rewrite Pos2Z.inj_xO, IH. lia.
Qed.

Lemma shiftl_pos_Z q n : 0 <= n -> Zpos (F64.shiftl_pos q n) = Zpos q * 2 ^ n.
Proof.
  destruct n as [|p|p]; intros Hn; simpl F64.shiftl_pos.
  - rewrite Z.pow_0_r. lia.
  - apply iter_xO_Z.
  - lia.
Qed.

Lemma shiftl_pos_add q a b :
  0 <= a -> 0 <= b -> F64.shiftl_pos (F64.shiftl_pos q a) b = F64.shiftl_pos q (a + b).
Proof.
  intros Ha Hb. apply Pos2Z.inj.
  rewrite !shiftl_pos_Z by lia. rewrite Z.pow_add_r by lia. lia.
Qed.

Lemma digits2_iter_xO q p :
  Zpos (digits2_pos (Pos.iter xO q p)) = Zpos (digits2_pos q) + Zpos p.
Proof.
  induction p as [|p IH] using Pos.peano_ind.
  - simpl. lia.
  - rewrite Pos.iter_succ. simpl digits2_pos. rewrite Pos2Z.inj_succ, IH. lia.
Qed.

Lemma digits2_shiftl_pos q n :
  0 <= n -> Zpos (digits2_pos (F64.shiftl_pos q n)) = Zpos (digits2_pos q) + n.
Proof.
  destruct n as [|p|p]; intros Hn; simpl F64.shiftl_pos.
  - lia.
  - apply digits2_iter_xO.
  - lia.
Qed.

Lemma digits2_lower p : 2 ^ (Zpos (digits2_pos p) - 1) <= Zpos p.
Proof.
  induction p as [p IH|p IH|]; simpl digits2_pos.
  - rewrite Pos2Z.inj_succ.
    replace (Z.succ (Zpos (digits2_pos p)) - 1) with (Z.succ (Zpos (digits2_pos p) - 1)) by lia.
    rewrite Z.pow_succ_r by lia. lia.
  - rewrite Pos2Z.inj_succ.
    replace (Z.succ (Zpos (digits2_pos p)) - 1) with (Z.succ (Zpos (digits2_pos p) - 1)) by lia.
    rewrite Z.pow_succ_r by lia. lia.
  - simpl. lia.
Qed.

Lemma digits2_le_53 p : Zpos p < 2 ^ 53 -> Zpos (digits2_pos p) <= 53.
Proof.
  intros Hp. destruct (Z_le_gt_dec (Zpos (digits2_pos p)) 53) as [H|H]; [exact H|].
  exfalso. pose proof (digits2_lower p) as Hl.
  assert (2 ^ 53 <= 2 ^ (Zpos (digits2_pos p) - 1)) by (apply Z.pow_le_mono_r; lia).
  lia.
Qed.

Lemma iter_pos_shr_1_exact p : forall q,
  iter_pos shr_1 p (Build_shr_record (Zpos (Pos.iter xO q p)) false false)
  = Build_shr_record (Zpos q) false false.
Proof.
  induction p as [p IH|p IH|]; intros q; simpl.
  - rewrite IH, IH. reflexivity.
  - rewrite IH, IH. reflexivity.
  - reflexivity.
Qed.

Lemma shr_exact q e n : 0 <= n ->
  shr (Build_shr_record (Zpos (F64.shiftl_pos q n)) false false) e n
  = (Build_shr_record (Zpos q) false false, e + n).
Proof.
  destruct n as [|p|p]; intros Hn; simpl F64.shiftl_pos; unfold shr.
  - rewrite Z.add_0_r. reflexivity.
  - rewrite iter_pos_shr_1_exact. reflexivity.
  - lia.
Qed.

Lemma fexp_normal e : 3 - F64.emax - F64.prec <= e - F64.prec -> fexp F64.prec F64.emax e = e - F64.prec.
Proof. intros H. unfold fexp, emin. apply Z.max_l. exact H. Qed.

Lemma binary_round_aux_exact q e n :
  0 <= n -> Zpos (digits2_pos q) = 53 -> -1074 <= e + n <= 971 ->
  binary_round_aux F64.prec F64.emax false (Zpos (F64.shiftl_pos q n)) e loc_Exact
  = S754_finite false q (e + n).
Proof.
  intros Hn Hd He. unfold binary_round_aux, shr_fexp.
  cbn [Zdigits2 shr_record_of_loc].
  rewrite digits2_shiftl_pos, Hd by exact Hn.
  rewrite fexp_normal by (unfold F64.emax, F64.prec; lia).
  replace (53 + n + e - F64.prec - e) with n by (unfold F64.prec; lia).
  rewrite shr_exact by exact Hn.
  cbn [shr_m loc_of_shr_record round_nearest_even Zdigits2 shr_record_of_loc].
  rewrite Hd, fexp_normal by (unfold F64.emax, F64.prec; lia).
  replace (53 + (e + n) - F64.prec - (e + n)) with 0 by (unfold F64.prec; lia).
  cbn [shr shr_m].
  replace (e + n <=? F64.emax - F64.prec) with true; [reflexivity|].
  symmetry. apply Z.leb_le. unfold F64.emax, F64.prec. lia.
Qed.

Lemma binary_round_int K j :
  0 <= j -> Zpos (digits2_pos K) <= 53 ->
  binary_round F64.prec F64.emax false (F64.shiftl_pos K j) (- j)
  = S754_finite false (F64.shiftl_pos K (53 - Zpos (digits2_pos K)))
      (Zpos (digits2_pos K) - 53).
Proof.
  intros Hj Hd. unfold binary_round.
  rewrite digits2_shiftl_pos by exact Hj.
  set (d := Zpos (digits2_pos K)) in *.
  assert (Hd1 : 1 <= d) by (unfold d; lia).
  rewrite fexp_normal by (unfold F64.emax, F64.prec; lia).
  replace (d + j + - j - F64.prec) with (d - 53) by (unfold F64.prec; lia).
  assert (Hq : Zpos (digits2_pos (F64.shiftl_pos K (53 - d))) = 53).
  { rewrite digits2_shiftl_pos by lia. fold d. lia. }
  unfold shl_align.
  destruct (d - 53 - - j) as [|t|t] eqn:Ht.
  - replace (F64.shiftl_pos K j) with (F64.shiftl_pos (F64.shiftl_pos K (53 - d)) 0)
      by (rewrite shiftl_pos_add by lia; f_equal; lia).
    rewrite binary_round_aux_exact by (try exact Hq; lia).
    f_equal. lia.
  - replace (F64.shiftl_pos K j) with (F64.shiftl_pos (F64.shiftl_pos K (53 - d)) (Zpos t))
      by (rewrite shiftl_pos_add by lia; f_equal; lia).
    rewrite binary_round_aux_exact by (try exact Hq; lia).
    f_equal. lia.
  - change (Pos.iter xO (F64.shiftl_pos K j) t) with (F64.shiftl_pos (F64.shiftl_pos K j) (Zpos t)).
    rewrite shiftl_pos_add by lia.
    replace (j + Zpos t) with (53 - d) by lia.
    replace (F64.shiftl_pos K (53 - d)) with (F64.shiftl_pos (F64.shiftl_pos K (53 - d)) 0) at 1
      by reflexivity.
    rewrite binary_round_aux_exact by (try exact Hq; lia).
    f_equal. lia.
Qed.

Lemma of_Z_pos K :
  Zpos (digits2_pos K) <= 53 ->
  F64.of_Z (Zpos K)
  = S754_finite false (F64.shiftl_pos K (53 - Zpos (digits2_pos K)))
      (Zpos (digits2_pos K) - 53).
Proof.
  intros Hd. unfold F64.of_Z, F64.of_Z_exp, binary_normalize.
  exact (binary_round_int K 0 (Z.le_refl 0) Hd).
Qed.

Lemma shl_align_fst m e e' :
  e' <= e -> fst (shl_align m e e') = F64.shiftl_pos m (e - e').
Proof.
  intros H. unfold shl_align.
  destruct (e' - e) as [|t|t] eqn:Ht.
  - replace (e - e') with 0 by lia. reflexivity.
  - lia.
  - replace (e - e') with (Zpos t) by lia. reflexivity.
Qed.

Lemma add_one_exact K :
  Zpos (digits2_pos K) <= 53 -> Zpos (digits2_pos (K + 1)) <= 53 ->
  F64.add (F64.of_Z (Zpos K)) F64.one = F64.of_Z (Zpos (K + 1)).
Proof.
  intros Hd Hd'. rewrite !of_Z_pos by assumption.
  set (d := Zpos (digits2_pos K)) in *.
  assert (Hd1 : 1 <= d) by (unfold d; lia).
  unfold F64.add, F64.one, SFadd.
  replace (Z.min (d - 53) (-52)) with (-52) by lia.
  rewrite !shl_align_fst by lia.
  rewrite shiftl_pos_add by lia.
  replace (53 - d + (d - 53 - -52)) with 52 by lia.
  replace (-52 - -52) with 0 by lia.
  cbn [F64.shiftl_pos cond_Zopp Z.add].
  replace (F64.shiftl_pos K 52 + 4503599627370496)%positive with (F64.shiftl_pos (K + 1) 52).
  2:{ apply Pos2Z.inj. rewrite Pos2Z.inj_add, !shiftl_pos_Z by lia.
      rewrite Pos2Z.inj_add. change (2 ^ 52) with 4503599627370496. lia. }
  unfold binary_normalize.
  exact (binary_round_int (K + 1) 52 ltac:(lia) Hd').
Qed.

Lemma count_up_S n : F64.count_up (S n) = F64.add (F64.count_up n) F64.one.
Proof. reflexivity. Qed.

Lemma count_up_exact n :
  Z.of_nat n <= 2 ^ 53 -> F64.count_up n = F64.of_nat n.
Proof.
  induction n as [|n IH]; intros Hn.
  - reflexivity.
  - rewrite count_up_S, IH by lia.
    unfold F64.of_nat. rewrite Nat2Z.inj_succ.
    destruct (Z.of_nat n) as [|K|K] eqn:HK; [reflexivity| |lia].
    replace (Z.succ (Zpos K)) with (Zpos (K + 1)) by lia.
    destruct (Z.eq_dec (Zpos K) (2 ^ 53 - 1)) as [E|E].
    + change (2 ^ 53 - 1) with 9007199254740991 in E.
      injection E as ->. vm_compute. reflexivity.
    + apply add_one_exact; apply digits2_le_53; lia.
Qed.

Lemma of_nat_nonzero n :
  (1 <= n)%nat -> Z.of_nat n <= 2 ^ 53 -> F64.eqb (F64.of_nat n) F64.zero = false.
Proof.
  intros H1 Hn. unfold F64.of_nat.
  destruct (Z.of_nat n) as [|K|K] eqn:HK; [lia| |lia].
  destruct (Z.eq_dec (Zpos K) (2 ^ 53)) as [E|E].
  - change (2 ^ 53) with 9007199254740992 in E. injection E as ->. reflexivity.
  - rewrite of_Z_pos by (apply digits2_le_53; lia). reflexivity.
Qed.

(** Past [2^53] the counter stays at [2^53]: adding [1.0] rounds back. *)
Lemma count_up_saturates n :
  2 ^ 53 <= Z.of_nat n -> F64.count_up n = F64.of_Z (2 ^ 53).
Proof.
  induction n as [|n IH]; intros Hn.
  - cbn in Hn. lia.
  - destruct (Z.eq_dec (Z.of_nat (S n)) (2 ^ 53)) as [E|E].
    + rewrite count_up_exact by lia. unfold F64.of_nat. rewrite E. reflexivity.
    + rewrite count_up_S, IH by lia. vm_compute. reflexivity.
Qed.

Lemma count_up_nonzero n :
  (1 <= n)%nat -> F64.eqb (F64.count_up n) F64.zero = false.
Proof.
  intros H1. destruct (Z_le_gt_dec (Z.of_nat n) (2 ^ 53)) as [H|H].
  - rewrite count_up_exact by exact H. apply of_nat_nonzero; assumption.
  - rewrite count_up_saturates by lia. reflexivity.
Qed.

End F64Facts.

(** ** The aggregator *)

Module MetricsSpec.

Import Metrics.

Section ScoringLoop.

(** Both scoring loops count the metrics they visit in [total] and add a
    term [f metric] to [weighted]. *)
Variable f : SecurityMetric.t -> float64.
Variable step : float64 * float64 -> SecurityMetric.t -> float64 * float64.
Hypothesis step_eq : forall total weighted metric,
  step (total, weighted) metric = (F64.add total F64.one, F64.add weighted (f metric)).

Lemma loop_state ms : forall total weighted,
  fold_left step ms (total, weighted)
  = (Nat.iter (List.length ms) (fun t => F64.add t F64.one) total,
     fold_left F64.add (map f ms) weighted).
Proof.
  induction ms as [|m ms IH]; intros total weighted.
  - reflexivity.
  - cbn [fold_left map List.length]. rewrite step_eq, IH.
    rewrite Nat.iter_succ_r. reflexivity.
Qed.

Lemma loop_result_counted ms :
  (let '(total, weighted) := fold_left step ms (F64.zero, F64.zero) in
   if F64.eqb total F64.zero then F64.zero else F64.div weighted total)
  = counted_average (map f ms).
Proof.
  rewrite loop_state. fold (F64.count_up (List.length ms)).
  destruct ms as [|m ms].
  - reflexivity.
  - rewrite F64Facts.count_up_nonzero by (cbn [List.length]; lia).
    unfold counted_average, fsum. cbn [map List.length]. rewrite length_map. reflexivity.
Qed.

Lemma loop_result ms :
  Z.of_nat (List.length ms) <= 2 ^ 53 ->
  (let '(total, weighted) := fold_left step ms (F64.zero, F64.zero) in
   if F64.eqb total F64.zero then F64.zero else F64.div weighted total)
  = simple_average (map f ms).
Proof.
  intros Hlen. rewrite loop_result_counted.
  unfold counted_average, simple_average. destruct (map f ms) as [|x xs] eqn:E.
  - reflexivity.
  - rewrite F64Facts.count_up_exact; [reflexivity|].
    rewrite <- E, length_map. exact Hlen.
Qed.

End ScoringLoop.

Lemma GetComplianceScore_average c :
  Z.of_nat (List.length (GetMetricByType c TypeCompliance)) <= 2 ^ 53 ->
  GetComplianceScore c
  = simple_average (map percent_of_target (GetMetricByType c TypeCompliance)).
Proof.
  intros Hlen. unfold GetComplianceScore.
  apply (loop_result percent_of_target compliance_step); [reflexivity|exact Hlen].
Qed.

Lemma GetComplianceScore_counted c :
  GetComplianceScore c
  = counted_average (map percent_of_target (GetMetricByType c TypeCompliance)).
Proof.
  unfold GetComplianceScore.
  apply (loop_result_counted percent_of_target compliance_step). reflexivity.
Qed.

Lemma GetRiskScore_counted c :
  GetRiskScore c = counted_average (map SecurityMetric.Value (GetMetricByType c TypeRisk)).
Proof.
  unfold GetRiskScore.
  apply (loop_result_counted SecurityMetric.Value risk_step). reflexivity.
Qed.

Lemma GetRiskScore_average c :
  Z.of_nat (List.length (GetMetricByType c TypeRisk)) <= 2 ^ 53 ->
  GetRiskScore c = simple_average (map SecurityMetric.Value (GetMetricByType c TypeRisk)).
Proof.
  intros Hlen. unfold GetRiskScore.
  apply (loop_result SecurityMetric.Value risk_step); [reflexivity|exact Hlen].
Qed.

(** The scores read the metrics of the collector only. *)
Lemma GetComplianceScore_metrics ms ks ks' s s' :
  GetComplianceScore (mkCollector ms ks s) = GetComplianceScore (mkCollector ms ks' s').
Proof. reflexivity. Qed.

Lemma GetRiskScore_metrics ms ks ks' s s' :
  GetRiskScore (mkCollector ms ks s) = GetRiskScore (mkCollector ms ks' s').
Proof. reflexivity. Qed.

(** [updateSummary] leaves the collections alone and makes the summary
    current. *)
Lemma updateSummary_current c now : summary_current (updateSummary c now).
Proof.
  destruct c as [ms ks s]. unfold summary_current, counts_and_scores_current, health_current.
  cbn. repeat split.
Qed.

Lemma perform_current c k : summary_current (perform c k).
Proof. destruct k; cbn [perform]; unfold AddMetric, AddKPI; apply updateSummary_current. Qed.

Lemma run_snoc calls k : run (calls ++ [k]) = perform (run calls) k.
Proof. unfold run. rewrite fold_left_app. reflexivity. Qed.

(** C1: the compliance score of a collector is the simple average, over
    its metrics tagged "compliance", of [(value / target) * 100]; it is [0]
    when there is no such metric, and [90] for the two metrics 80/100 and
    100/100.  The divisor is the number of compliance metrics as the loop
    counts it in float64, which is that number up to [2^53] metrics. *)
Theorem GetComplianceScore_simple_average (c : MetricsCollector) :
  GetComplianceScore c
  = counted_average (map percent_of_target (GetMetricByType c TypeCompliance))
  /\ (Z.of_nat (List.length (GetMetricByType c TypeCompliance)) <= 2 ^ 53 ->
      GetComplianceScore c
      = simple_average (map percent_of_target (GetMetricByType c TypeCompliance)))
  /\ (GetMetricByType c TypeCompliance = [] -> GetComplianceScore c = F64.zero)
  /\ (forall m1 m2,
        GetMetricByType c TypeCompliance = [m1; m2] ->
        SecurityMetric.Value m1 = F64.of_Z 80 -> SecurityMetric.Target m1 = F64.of_Z 100 ->
        SecurityMetric.Value m2 = F64.of_Z 100 -> SecurityMetric.Target m2 = F64.of_Z 100 ->
        GetComplianceScore c = F64.of_Z 90).
Proof.
  pose proof (GetComplianceScore_counted c) as Hcnt.
  split; [exact Hcnt|split; [apply GetComplianceScore_average|split]].
  - intros Hnone. rewrite Hcnt, Hnone. reflexivity.
  - intros m1 m2 Hms Hv1 Ht1 Hv2 Ht2. rewrite Hcnt, Hms.
    cbn [map]. unfold percent_of_target. rewrite Hv1, Ht1, Hv2, Ht2.
    vm_compute. reflexivity.
Qed.

Lemma GetComplianceScore_simple_average_witness :
  let c :=
    mkCollector
      [compliance_metric (F64.of_Z 80) (F64.of_Z 100); risk_metric (F64.of_Z 7);
       compliance_metric (F64.of_Z 100) (F64.of_Z 100)] [] MetricsSummary.zero in
  GetComplianceScore c = F64.of_Z 90
  /\ GetComplianceScore c
     = simple_average (map percent_of_target (GetMetricByType c TypeCompliance)).
Proof.
  split.
  - apply (proj2 (proj2 (proj2 (GetComplianceScore_simple_average _)))
             (compliance_metric (F64.of_Z 80) (F64.of_Z 100))
             (compliance_metric (F64.of_Z 100) (F64.of_Z 100)));
      reflexivity.
  - apply (proj1 (proj2 (GetComplianceScore_simple_average _))).
    vm_compute. discriminate.
Defined.

(** C5: the risk score of a collector is the simple average of the raw
    values of its metrics tagged "risk", and [0] when there is none; both
    scores are [0] when the collections are empty.  The divisor is the
    number of risk metrics as the loop counts it in float64, which is that
    number up to [2^53] metrics. *)
Theorem GetRiskScore_simple_average (c : MetricsCollector) :
  GetRiskScore c = counted_average (map SecurityMetric.Value (GetMetricByType c TypeRisk))
  /\ (Z.of_nat (List.length (GetMetricByType c TypeRisk)) <= 2 ^ 53 ->
      GetRiskScore c
      = simple_average (map SecurityMetric.Value (GetMetricByType c TypeRisk)))
  /\ (GetMetricByType c TypeRisk = [] -> GetRiskScore c = F64.zero)
  /\ (metrics c = [] -> kpis c = [] ->
      GetComplianceScore c = F64.zero /\ GetRiskScore c = F64.zero).
Proof.
  pose proof (GetRiskScore_counted c) as Hcnt.
  split; [exact Hcnt|split; [apply GetRiskScore_average|split]].
  - intros Hnone. rewrite Hcnt, Hnone. reflexivity.
  - intros Hm _. destruct c as [ms ks s]. cbn in Hm. subst ms. split; reflexivity.
Qed.

Lemma GetRiskScore_simple_average_witness :
  GetRiskScore
    (mkCollector
       [risk_metric (F64.of_Z 40); compliance_metric (F64.of_Z 80) (F64.of_Z 100);
        risk_metric (F64.of_Z 51)] [] MetricsSummary.zero)
  = F64.of_Z_exp 91 (-1)
  /\ GetRiskScore NewMetricsCollector = F64.zero
  /\ GetComplianceScore NewMetricsCollector = F64.zero.
Proof.
  split.
  - refine (eq_trans (proj1 (proj2 (GetRiskScore_simple_average _)) _) _).
    + vm_compute. discriminate.
    + vm_compute. reflexivity.
  - pose proof (proj2 (proj2 (proj2 (GetRiskScore_simple_average NewMetricsCollector)))
                  eq_refl eq_refl) as H.
    split; apply H.
Defined.

(** The claim of C2 as it is worded, for every reachable state including
    the fresh collector, does not hold: the summary of a fresh collector
    carries no health tier, whereas the tier of its scores is POOR. *)
Lemma summary_current_fails_on_fresh_collector :
  run [] = NewMetricsCollector
  /\ MetricsSummary.OverallHealth (GetSummary (run [])) = ""
  /\ determineHealth (GetComplianceScore (run [])) (GetRiskScore (run [])) = "POOR"
  /\ ~ summary_current (run []).
Proof.
  repeat split. intros [_ Hh]. vm_compute in Hh. discriminate Hh.
Qed.

(** C2, amended: in every reachable state the totals and the two scores of
    the summary are those of the current collections, and after at least
    one [AddMetric] or [AddKPI] the health tier of the summary is the tier
    of the current scores; no refresh is needed. *)
Theorem summary_reflects_collections (calls : list call) :
  counts_and_scores_current (run calls)
  /\ (calls <> [] -> health_current (run calls)).
Proof.
  destruct calls as [|k calls] using rev_ind.
  - split; [|congruence]. unfold counts_and_scores_current. cbn. repeat split.
  - rewrite run_snoc. destruct (perform_current (run calls) k) as [Hc Hh].
    split; [exact Hc|intros _; exact Hh].
Qed.

Lemma summary_reflects_collections_witness :
  health_current
    (run [CallAddMetric (compliance_metric (F64.of_Z 92) (F64.of_Z 100)) Time.zero Time.zero;
          CallAddKPI (KPI.mk "mttr" "MTTR" "" (F64.of_Z_exp 5 (-1)) (F64.of_Z 1) "hours"
                        "BELOW_TARGET" "IMPROVING" Time.zero "Response") Time.zero Time.zero]).
Proof.
  apply (proj2 (summary_reflects_collections _)). discriminate.
Defined.

(** C3: [GetComplianceScore] divides by the target of every compliance
    metric without looking at it.  With a single compliance metric of
    value 1 and target 0 the score is +Inf, which the summary classifies
    as HEALTHY; with value 0 and target 0 it is NaN. *)
Theorem GetComplianceScore_zero_target_unguarded :
  let c := AddMetric NewMetricsCollector
             (compliance_metric (F64.of_Z 1) (F64.of_Z 0)) Time.zero Time.zero in
  let c' := AddMetric NewMetricsCollector
              (compliance_metric (F64.of_Z 0) (F64.of_Z 0)) Time.zero Time.zero in
  GetComplianceScore c = F64.pinf
  /\ F64.is_finite (GetComplianceScore c) = false
  /\ MetricsSummary.ComplianceScore (GetSummary c) = F64.pinf
  /\ MetricsSummary.OverallHealth (GetSummary c) = "HEALTHY"
  /\ GetComplianceScore c' = F64.nan.
Proof. vm_compute. repeat split. Qed.

(** C4: the health tier is a function of the two scores decided by the
    ordered thresholds, the first match winning: HEALTHY for compliance
    >= 90 and risk <= 30, else GOOD for >= 70 and <= 50, else FAIR for
    >= 50 and <= 70, else POOR; (92, 45.5) is GOOD. *)
Theorem determineHealth_first_match (compliance risk : float64) :
  determineHealth compliance risk = first_match compliance risk
  /\ (tier_matches compliance risk (90, 30, "HEALTHY") = true ->
      determineHealth compliance risk = "HEALTHY")
  /\ (tier_matches compliance risk (90, 30, "HEALTHY") = false ->
      tier_matches compliance risk (70, 50, "GOOD") = true ->
      determineHealth compliance risk = "GOOD")
  /\ (tier_matches compliance risk (90, 30, "HEALTHY") = false ->
      tier_matches compliance risk (70, 50, "GOOD") = false ->
      tier_matches compliance risk (50, 70, "FAIR") = true ->
      determineHealth compliance risk = "FAIR")
  /\ (tier_matches compliance risk (90, 30, "HEALTHY") = false ->
      tier_matches compliance risk (70, 50, "GOOD") = false ->
      tier_matches compliance risk (50, 70, "FAIR") = false ->
      determineHealth compliance risk = "POOR")
  /\ determineHealth (F64.of_Z 92) (F64.of_Z_exp 91 (-1)) = "GOOD".
Proof.
  unfold determineHealth, first_match, health_table, tier_matches.
  cbn [find].
  destruct (F64.geb compliance (F64.of_Z 90) && F64.leb risk (F64.of_Z 30));
  destruct (F64.geb compliance (F64.of_Z 70) && F64.leb risk (F64.of_Z 50));
  destruct (F64.geb compliance (F64.of_Z 50) && F64.leb risk (F64.of_Z 70));
  repeat split; intros; try reflexivity; try discriminate.
Qed.

Lemma determineHealth_first_match_witness :
  determineHealth (F64.of_Z 55) (F64.of_Z 60) = "FAIR".
Proof.
  apply (proj1 (proj2 (proj2 (proj2 (determineHealth_first_match _ _)))));
    reflexivity.
Defined.

(** C10: the summary of a freshly constructed collector is the zero value:
    both totals and both scores are 0 and the health tier is the empty
    string, not the tier POOR that the scores 0 and 0 classify to. *)
Theorem NewMetricsCollector_summary_zero :
  let s := GetSummary NewMetricsCollector in
  MetricsSummary.TotalMetrics s = 0
  /\ MetricsSummary.TotalKPIS s = 0
  /\ MetricsSummary.ComplianceScore s = F64.zero
  /\ MetricsSummary.RiskScore s = F64.zero
  /\ MetricsSummary.OverallHealth s = ""
  /\ MetricsSummary.LastUpdated s = Time.zero
  /\ determineHealth (MetricsSummary.ComplianceScore s) (MetricsSummary.RiskScore s) = "POOR"
  /\ MetricsSummary.OverallHealth s
     <> determineHealth (MetricsSummary.ComplianceScore s) (MetricsSummary.RiskScore s).
Proof.
  cbv zeta. repeat split. vm_compute. discriminate.
Qed.

End MetricsSpec.

(** ** Strings *)

Module FmtFacts.

Lemma append_assoc (s1 s2 s3 : string) : (s1 ++ s2) ++ s3 = s1 ++ s2 ++ s3.
Proof.
  induction s1 as [|c s1 IH]; cbn [append].
  - reflexivity.
  - rewrite IH. reflexivity.
Qed.

Lemma append_nil_r (s : string) : s ++ "" = s.
Proof.
  induction s as [|c s IH]; cbn [append].
  - reflexivity.
  - rewrite IH. reflexivity.
Qed.

Lemma all_digits_string_of_uint (u : Decimal.uint) :
  Fmt.all_digits (NilEmpty.string_of_uint u) = true.
Proof. induction u; cbn; auto. Qed.

Lemma all_digits_digits_of_N (n : N) : Fmt.all_digits (Fmt.digits_of_N n) = true.
Proof.
  unfold Fmt.digits_of_N, NilZero.string_of_uint.
  pose proof (all_digits_string_of_uint (N.to_uint n)) as H.
  destruct (N.to_uint n); first [exact H | reflexivity].
Qed.

Lemma digits_of_N_nonempty (n : N) : Fmt.digits_of_N n <> "".
Proof.
  unfold Fmt.digits_of_N, NilZero.string_of_uint.
  destruct (N.to_uint n); cbn; discriminate.
Qed.

Lemma digits_of_N_single (n : N) :
  (n < 10)%N ->
  exists d, Fmt.digits_of_N n = String d EmptyString /\ Fmt.is_digit d = true.
Proof.
  intros Hn.
  assert (H : n = 0%N \/ n = 1%N \/ n = 2%N \/ n = 3%N \/ n = 4%N \/ n = 5%N
              \/ n = 6%N \/ n = 7%N \/ n = 8%N \/ n = 9%N) by lia.
  repeat (destruct H as [->|H]); try subst n;
    (eexists; split; [reflexivity|reflexivity]).
Qed.

(** On a finite float64, [%.1f] prints exactly one fractional digit. *)
Lemma Sprintf_f1_one_decimal (x : float64) :
  F64.is_finite x = true -> Fmt.one_decimal (Fmt.Sprintf_f1 x).
Proof.
  destruct x as [s|s| |s m e]; cbn [F64.is_finite]; try discriminate; intros _.
  - exists s, "0", "0"%char. cbn [Fmt.Sprintf_f1]. repeat split. discriminate.
  - cbn [Fmt.Sprintf_f1]. cbv zeta.
    destruct (digits_of_N_single (Fmt.tenths m e mod 10)) as (d & Hd & Hdig).
    { apply N.mod_lt. discriminate. }
    exists s, (Fmt.digits_of_N (Fmt.tenths m e / 10)), d.
    rewrite Hd. repeat split.
    + apply digits_of_N_nonempty.
    + apply all_digits_digits_of_N.
    + exact Hdig.
Qed.

End FmtFacts.

Example Sprintf_f1_samples :
  Fmt.Sprintf_f1 (F64.of_Z 92) = "92.0"
  /\ Fmt.Sprintf_f1 (F64.of_Z_exp 91 (-1)) = "45.5"
  /\ Fmt.Sprintf_f1 (F64.of_Z_exp 1 (-2)) = "0.2"
  /\ Fmt.Sprintf_f1 (F64.of_Z_exp 3 (-2)) = "0.8"
  /\ Fmt.Sprintf_f1 (F64.div (F64.of_Z 5) (F64.of_Z 100)) = "0.1"
  /\ Fmt.Sprintf_f1 (F64.div (F64.of_Z 35) (F64.of_Z 100)) = "0.3"
  /\ Fmt.Sprintf_f1 (F64.div (F64.of_Z (-999)) (F64.of_Z 100)) = "-10.0"
  /\ Fmt.Sprintf_f1 (F64.of_Z_exp 1 (-1074)) = "0.0"
  /\ Fmt.Sprintf_f1 (F64.of_Z_exp 1 70) = "1180591620717411303424.0"
  /\ Fmt.Sprintf_f1 F64.pinf = "+Inf"
  /\ Time.Format_compact (Time.mk 2026 3 7 9 5 1 999) = "20260307090501"
  /\ Time.Format_datetime Time.zero = "0001-01-01 00:00:00".
Proof. vm_compute. repeat split. Qed.

(** ** The report builder *)

Module ReportingSpec.

Import Reporting.

(** Both sides of a rendering equation are brought to the same
    right-nested concatenation. *)
Ltac render_normalize :=
  unfold Fmt.nl;
  repeat (progress (cbn [append fst snd map fold_right Fmt.join String.concat];
                    rewrite ?FmtFacts.append_assoc, ?FmtFacts.append_nil_r)).

(** A loop that appends one row per element renders the rows in order
    after what was there before. *)
Lemma fold_left_append {A : Type} (step : string -> A -> string) (row : A -> string)
    (Hstep : forall acc x, step acc x = acc ++ row x) (xs : list A) : forall init,
  fold_left step xs init = init ++ Fmt.join (map row xs).
Proof.
  induction xs as [|x xs IH]; intros init; cbn [fold_left map Fmt.join fold_right].
  - rewrite FmtFacts.append_nil_r. reflexivity.
  - rewrite IH, Hstep, FmtFacts.append_assoc. reflexivity.
Qed.

Lemma modify_first_absent reportID f rs :
  ~ In reportID (map Report.ID rs) -> modify_first reportID f rs = rs.
Proof.
  induction rs as [|r rs IH]; cbn [modify_first map In]; intros Hid.
  - reflexivity.
  - destruct (String.eqb_spec (Report.ID r) reportID) as [E|E].
    + exfalso. apply Hid. left. exact E.
    + rewrite IH; [reflexivity|]. intros Hin. apply Hid. right. exact Hin.
Qed.

Lemma find_absent reportID rs :
  ~ In reportID (map Report.ID rs) ->
  find (fun r => String.eqb (Report.ID r) reportID) rs = None.
Proof.
  induction rs as [|r rs IH]; cbn [find map In]; intros Hid.
  - reflexivity.
  - destruct (String.eqb_spec (Report.ID r) reportID) as [E|E].
    + exfalso. apply Hid. left. exact E.
    + apply IH. intros Hin. apply Hid. right. exact Hin.
Qed.

(** C6: the Markdown rendering of a report is a heading, the bold-labelled
    lines for the id, the title and the creation time, and a two-column
    (Metric, Value) table of exactly three data rows: Overall Health,
    Compliance Score to one decimal followed by %, Risk Score to one
    decimal.  It does not depend on the line items attached to the
    report. *)
Theorem GenerateMarkdownReport_structure (report : Report.t) :
  GenerateMarkdownReport report
  = "# Security Metrics Report" ++ Fmt.nl ++ Fmt.nl
    ++ md_bold_line "Report ID" (Report.ID report) ++ Fmt.nl
    ++ md_bold_line "Title" (Report.Title report)
    ++ md_bold_line "Created" (Time.Format_datetime (Report.CreatedAt report)) ++ Fmt.nl
    ++ "## Executive Summary" ++ Fmt.nl ++ Fmt.nl
    ++ md_table ("Metric", "Value") (md_summary_rows report) ++ Fmt.nl
  /\ List.length (md_summary_rows report) = 3%nat
  /\ (forall ms ks,
        GenerateMarkdownReport (with_line_items report ms ks)
        = GenerateMarkdownReport report)
  /\ (F64.is_finite (ExecutiveSummary.ComplianceScore (Report.Executive report)) = true ->
      Fmt.one_decimal
        (Fmt.Sprintf_f1 (ExecutiveSummary.ComplianceScore (Report.Executive report))))
  /\ (F64.is_finite (ExecutiveSummary.RiskScore (Report.Executive report)) = true ->
      Fmt.one_decimal
        (Fmt.Sprintf_f1 (ExecutiveSummary.RiskScore (Report.Executive report)))).
Proof.
  split; [|split; [reflexivity|split; [reflexivity|split]]].
  - unfold GenerateMarkdownReport, md_table, md_row, md_bold_line, md_summary_rows,
      Fmt.Sprintf_f1_pct.
    cbv zeta. render_normalize. reflexivity.
  - apply FmtFacts.Sprintf_f1_one_decimal.
  - apply FmtFacts.Sprintf_f1_one_decimal.
Qed.

Lemma GenerateMarkdownReport_structure_witness :
  Fmt.one_decimal (Fmt.Sprintf_f1 (F64.of_Z 92))
  /\ Fmt.one_decimal (Fmt.Sprintf_f1 (F64.of_Z_exp 91 (-1))).
Proof.
  split.
  - apply (proj1 (proj2 (proj2 (proj2 (GenerateMarkdownReport_structure sample_report))))).
    reflexivity.
  - apply (proj2 (proj2 (proj2 (proj2 (GenerateMarkdownReport_structure sample_report))))).
    reflexivity.
Defined.

Example GenerateMarkdownReport_sample :
  GenerateMarkdownReport sample_report
  = "# Security Metrics Report" ++ Fmt.nl ++ Fmt.nl
    ++ "**Report ID:** rpt-20261031120000" ++ Fmt.nl ++ Fmt.nl
    ++ "**Title:** Weekly" ++ Fmt.nl
    ++ "**Created:** 2026-10-31 12:00:00" ++ Fmt.nl ++ Fmt.nl
    ++ "## Executive Summary" ++ Fmt.nl ++ Fmt.nl
    ++ "| Metric | Value |" ++ Fmt.nl
    ++ "|--------|-------|" ++ Fmt.nl
    ++ "| Overall Health | GOOD |" ++ Fmt.nl
    ++ "| Compliance Score | 92.0% |" ++ Fmt.nl
    ++ "| Risk Score | 45.5 |" ++ Fmt.nl ++ Fmt.nl.
Proof. vm_compute. reflexivity. Qed.

(** C7: the CSV rendering of a report is the header row followed by one
    row per metric line item, in order, with value and target to one
    decimal; KPI line items do not appear, and without metric line items
    the output is the header row alone. *)
Theorem GenerateCSVReport_structure (report : Report.t) :
  GenerateCSVReport report
  = csv_header ++ Fmt.join (map csv_row (Report.Metrics report))
  /\ (Report.Metrics report = [] ->
      GenerateCSVReport report = "Metric Name,Value,Target,Status,Trend" ++ Fmt.nl)
  /\ (forall ks, GenerateCSVReport (Report.set_KPIS report ks) = GenerateCSVReport report)
  /\ (forall metric, In metric (Report.Metrics report) ->
      (F64.is_finite (MetricData.Value metric) = true ->
       Fmt.one_decimal (Fmt.Sprintf_f1 (MetricData.Value metric)))
      /\ (F64.is_finite (MetricData.Target metric) = true ->
          Fmt.one_decimal (Fmt.Sprintf_f1 (MetricData.Target metric)))).
Proof.
  assert (Hrender : GenerateCSVReport report
                    = csv_header ++ Fmt.join (map csv_row (Report.Metrics report))).
  { unfold GenerateCSVReport. cbv zeta.
    apply fold_left_append. intros acc metric.
    unfold csv_row. render_normalize. reflexivity. }
  split; [exact Hrender|split; [|split]].
  - intros Hnone. rewrite Hrender, Hnone. reflexivity.
  - reflexivity.
  - intros metric _. split; apply FmtFacts.Sprintf_f1_one_decimal.
Qed.

Lemma GenerateCSVReport_structure_witness :
  GenerateCSVReport
    (Report.mk "rpt-1" "Empty" "" FormatCSV sample_time [] [sample_kpi]
       ExecutiveSummary.zero TechnicalSummary.zero [])
  = "Metric Name,Value,Target,Status,Trend" ++ Fmt.nl.
Proof.
  apply (proj1 (proj2 (GenerateCSVReport_structure _))). reflexivity.
Defined.

Example GenerateCSVReport_sample :
  GenerateCSVReport sample_report
  = "Metric Name,Value,Target,Status,Trend" ++ Fmt.nl
    ++ "Vulnerabilities Open,45.0,20.0,ABOVE_TARGET,IMPROVING" ++ Fmt.nl.
Proof. vm_compute. reflexivity. Qed.

(** C8: for an id that no stored report carries, [GetReport] returns nil
    and [AddMetric] and [AddKPI] leave the generator, hence every stored
    report with its line items and summary blocks, as it was. *)
Theorem unknown_id_not_found_and_noop (g : ReportGenerator) (reportID : string) :
  ~ In reportID (ids g) ->
  GetReport g reportID = None
  /\ (forall metric, AddMetric g reportID metric = g)
  /\ (forall kpi, AddKPI g reportID kpi = g).
Proof.
  destruct g as [rs]. unfold ids, GetReport, AddMetric, AddKPI. cbn [reports].
  intros Hid. split; [|split].
  - apply find_absent. exact Hid.
  - intros metric. rewrite modify_first_absent by exact Hid. reflexivity.
  - intros kpi. rewrite modify_first_absent by exact Hid. reflexivity.
Qed.

Lemma unknown_id_not_found_and_noop_witness :
  GetReport (mkGenerator [sample_report]) "rpt-unknown" = None
  /\ (forall metric, AddMetric (mkGenerator [sample_report]) "rpt-unknown" metric
                     = mkGenerator [sample_report])
  /\ (forall kpi, AddKPI (mkGenerator [sample_report]) "rpt-unknown" kpi
                  = mkGenerator [sample_report]).
Proof.
  apply (unknown_id_not_found_and_noop (mkGenerator [sample_report]) "rpt-unknown").
  cbn. intros [H|[]]. discriminate H.
Defined.

(** C9: the id of a report is its creation time printed to the second, so
    two reports created on one generator within the same second receive
    the same id; the registry then holds a duplicate id, and looking up
    the id of the second report finds the first. *)
Theorem GenerateReport_same_second_same_id :
  let '(g1, r1) :=
    GenerateReport NewReportGenerator "First" "" FormatMarkdown sample_time sample_time in
  let '(g2, r2) :=
    GenerateReport g1 "Second" "" FormatCSV sample_time_later sample_time_later in
  Report.ID r1 = "rpt-20261031120000"
  /\ Report.ID r2 = "rpt-20261031120000"
  /\ r1 <> r2
  /\ ids g2 = ["rpt-20261031120000"; "rpt-20261031120000"]
  /\ ~ NoDup (ids g2)
  /\ GetReport g2 (Report.ID r2) = Some r1.
Proof.
  vm_compute. repeat split; try discriminate.
  intros H. inversion H as [|x l Hin _]. apply Hin. left. reflexivity.
Qed.

End ReportingSpec.

(** ** More on float64: NaN, conversion of ints, division, order *)

Module F64More.

Local Close Scope string_scope.

Lemma add_nan_l x : F64.add F64.nan x = F64.nan.
Proof. destruct x; reflexivity. Qed.

Lemma add_nan_r x : F64.add x F64.nan = F64.nan.
Proof. destruct x; reflexivity. Qed.

Lemma div_nan_l x : F64.div F64.nan x = F64.nan.
Proof. destruct x; reflexivity. Qed.

Lemma fold_add_nan xs : fold_left F64.add xs F64.nan = F64.nan.
Proof. induction xs as [|x xs IH]; cbn [fold_left]; [reflexivity|]. rewrite add_nan_l. exact IH. Qed.

Lemma div_eucl_mul a b : 0 < b -> Z.div_eucl (b * a) b = (a, 0).
Proof.
  intros Hb. destruct (Z.div_eucl (b * a) b) as [q r] eqn:E.
  assert (Hq : q = (b * a) / b) by (unfold Z.div; rewrite E; reflexivity).
  assert (Hr : r = (b * a) mod b) by (unfold Z.modulo; rewrite E; reflexivity).
  rewrite Z.mul_comm in Hq, Hr.
  rewrite Z.div_mul in Hq by lia. rewrite Z.mod_mul in Hr by lia. subst. reflexivity.
Qed.

Lemma div_self s m e :
  F64.div (S754_finite s m e) (S754_finite s m e) = F64.one.
Proof.
  unfold F64.div, SFdiv, SFdiv_core_binary.
  replace (Zdigits2 (Zpos m) + e - (Zdigits2 (Zpos m) + e)) with 0 by lia.
  replace (e - e) with 0 by lia.
  change (Z.min (fexp F64.prec F64.emax 0) 0) with (-53).
  change (0 - -53) with 53.
  cbv iota beta.
  rewrite Z.shiftl_mul_pow2 by lia.
  rewrite (Z.mul_comm (Zpos m)), (Z.mul_comm (2 ^ 53)).
  rewrite div_eucl_mul by lia.
  assert (Hloc : new_location (Zpos m) 0 = loc_Exact).
  { unfold new_location, new_location_even, new_location_odd.
    destruct (Z.even (Zpos m)); reflexivity. }
  rewrite Hloc. destruct s; vm_compute; reflexivity.
Qed.

Lemma shr_1_m mrs : 0 <= shr_m mrs -> shr_m (shr_1 mrs) = shr_m mrs / 2.
Proof.
  destruct mrs as [m r s]. cbn [shr_m]. intros Hm.
  destruct m as [|p|p]; [reflexivity| |lia].
  destruct p as [p|p|]; cbn [shr_1 shr_m].
  - apply Z.div_unique with (r := 1); lia.
  - apply Z.div_unique with (r := 0); lia.
  - reflexivity.
Qed.

Lemma shr_m_iter p : forall mrs,
  0 <= shr_m mrs ->
  shr_m (iter_pos shr_1 p mrs) = shr_m mrs / 2 ^ Zpos p.
Proof.
  assert (Hdiv : forall a k, 0 <= a -> 0 < k -> 0 <= a / k)
    by (intros; apply Z.div_pos; lia).
  induction p as [p IH|p IH|]; intros mrs Hm; cbn [iter_pos].
  - assert (H1 : 0 <= shr_m (shr_1 mrs)) by (rewrite shr_1_m by lia; apply Hdiv; lia).
    assert (Hp : 0 < 2 ^ Zpos p) by (apply Z.pow_pos_nonneg; lia).
    assert (H2 : 0 <= shr_m (iter_pos shr_1 p (shr_1 mrs)))
      by (rewrite IH by lia; apply Hdiv; lia).
    rewrite IH, IH, shr_1_m by lia.
    rewrite !Z.div_div by lia. f_equal.
    replace (Zpos p~1) with (1 + Zpos p + Zpos p) by lia.
    rewrite !Z.pow_add_r by lia. change (2 ^ 1) with 2. lia.
  - assert (Hp : 0 < 2 ^ Zpos p) by (apply Z.pow_pos_nonneg; lia).
    assert (H2 : 0 <= shr_m (iter_pos shr_1 p mrs))
      by (rewrite IH by lia; apply Hdiv; lia).
    rewrite IH, IH by lia.
    rewrite !Z.div_div by lia. f_equal.
    replace (Zpos p~0) with (Zpos p + Zpos p) by lia.
    rewrite Z.pow_add_r by lia. lia.
  - rewrite shr_1_m by lia. reflexivity.
Qed.

Lemma digits2_upper p : Zpos p < 2 ^ Zpos (digits2_pos p).
Proof.
  induction p as [p IH|p IH|]; cbn [digits2_pos].
  - rewrite Pos2Z.inj_succ, Z.pow_succ_r by lia. lia.
  - rewrite Pos2Z.inj_succ, Z.pow_succ_r by lia. lia.
  - reflexivity.
Qed.

Lemma digits2_unique p k :
  2 ^ (k - 1) <= Zpos p < 2 ^ k -> Zpos (digits2_pos p) = k.
Proof.
  intros [Hl Hu].
  pose proof (F64Facts.digits2_lower p) as Hl'. pose proof (digits2_upper p) as Hu'.
  set (d := Zpos (digits2_pos p)) in *.
  assert (Hk : 0 < k).
  { destruct (Z_lt_le_dec 0 k) as [H|H]; [exact H|exfalso].
    assert (2 ^ k <= 1).
    { destruct (Z.eq_dec k 0) as [->|]; [simpl; lia|]. rewrite Z.pow_neg_r by lia. lia. }
    lia. }
  destruct (Z_lt_le_dec d k) as [H|H].
  - exfalso. assert (2 ^ d <= 2 ^ (k - 1)) by (apply Z.pow_le_mono_r; lia). lia.
  - destruct (Z_lt_le_dec k d) as [H'|H']; [exfalso|lia].
    assert (2 ^ k <= 2 ^ (d - 1)) by (apply Z.pow_le_mono_r; lia). lia.
Qed.

Lemma round_nearest_even_range q l :
  round_nearest_even q l = q \/ round_nearest_even q l = q + 1.
Proof.
  destruct l as [|[]]; cbn [round_nearest_even]; auto.
  destruct (Z.even q); auto.
Qed.

Lemma binary_round_aux_finite sx mz ez :
  53 <= Zpos (digits2_pos mz) ->
  -1074 <= Zpos (digits2_pos mz) + ez - 53 <= 970 ->
  exists m' e', binary_round_aux F64.prec F64.emax sx (Zpos mz) ez loc_Exact
                = S754_finite sx m' e'.
Proof.
  intros Hd HE. set (d := Zpos (digits2_pos mz)) in *.
  unfold binary_round_aux, shr_fexp.
  cbn [Zdigits2 shr_record_of_loc]. fold d.
  rewrite F64Facts.fexp_normal by (unfold F64.emax, F64.prec; lia).
  replace (d + ez - F64.prec - ez) with (d - 53) by (unfold F64.prec; lia).
  pose proof (F64Facts.digits2_lower mz) as Hl. pose proof (digits2_upper mz) as Hu.
  fold d in Hl, Hu.
  destruct (shr {| shr_m := Zpos mz; shr_r := false; shr_s := false |} ez (d - 53))
    as [mrs' e'] eqn:Hshr.
  assert (Hq : shr_m mrs' = Zpos mz / 2 ^ (d - 53) /\ e' = d + ez - 53).
  { unfold shr in Hshr. destruct (d - 53) as [|p|p] eqn:Hn.
    - injection Hshr as <- <-. cbn [shr_m]. rewrite Z.div_1_r. lia.
    - injection Hshr as <- <-. rewrite shr_m_iter by (cbn; lia). cbn [shr_m]. lia.
    - lia. }
  destruct Hq as [Hq ->].
  assert (Hpow : 2 ^ (d - 1) = 2 ^ 52 * 2 ^ (d - 53)).
  { rewrite <- Z.pow_add_r by lia. f_equal. lia. }
  assert (Hpow' : 2 ^ d = 2 ^ 53 * 2 ^ (d - 53)).
  { rewrite <- Z.pow_add_r by lia. f_equal. lia. }
  assert (Hp : 0 < 2 ^ (d - 53)) by (apply Z.pow_pos_nonneg; lia).
  assert (Hqr : 2 ^ 52 <= shr_m mrs' < 2 ^ 53).
  { rewrite Hq. split.
    - apply Z.div_le_lower_bound; lia.
    - apply Z.div_lt_upper_bound; lia. }
  set (mx := round_nearest_even (shr_m mrs') (loc_of_shr_record mrs')).
  assert (Hmx : 2 ^ 52 <= mx <= 2 ^ 53).
  { unfold mx. destruct (round_nearest_even_range (shr_m mrs') (loc_of_shr_record mrs'))
      as [-> | ->]; lia. }
  destruct mx as [|px|px] eqn:Epx; [lia| |lia].
  cbn [Zdigits2 shr_record_of_loc].
  destruct (Z.eq_dec (Zpos px) (2 ^ 53)) as [E|E].
  - change (2 ^ 53) with 9007199254740992 in E. injection E as ->.
    cbn [digits2_pos Pos.succ].
    rewrite F64Facts.fexp_normal by (unfold F64.emax, F64.prec; lia).
    replace (54 + (d + ez - 53) - F64.prec - (d + ez - 53)) with 1
      by (unfold F64.prec; lia).
    cbn [shr iter_pos shr_1 shr_m fst snd].
    replace (d + ez - 53 + 1 <=? F64.emax - F64.prec) with true
      by (symmetry; apply Z.leb_le; unfold F64.emax, F64.prec; lia).
    eauto.
  - rewrite (digits2_unique px 53) by (change (53 - 1) with 52; lia).
    rewrite F64Facts.fexp_normal by (unfold F64.emax, F64.prec; lia).
    replace (53 + (d + ez - 53) - F64.prec - (d + ez - 53)) with 0
      by (unfold F64.prec; lia).
    cbn [shr shr_m].
    replace (d + ez - 53 <=? F64.emax - F64.prec) with true
      by (symmetry; apply Z.leb_le; unfold F64.emax, F64.prec; lia).
    eauto.
Qed.

Lemma binary_round_finite sx m e :
  -1074 <= Zpos (digits2_pos m) + e - 53 <= 970 ->
  exists m' e', binary_round F64.prec F64.emax sx m e = S754_finite sx m' e'.
Proof.
  intros HE. set (d := Zpos (digits2_pos m)) in *.
  unfold binary_round. fold d.
  rewrite F64Facts.fexp_normal by (unfold F64.emax, F64.prec; lia).
  unfold shl_align.
  destruct (d + e - F64.prec - e) as [|t|t] eqn:Ht; unfold F64.prec in Ht.
  - apply binary_round_aux_finite; fold d; lia.
  - apply binary_round_aux_finite; fold d; lia.
  - assert (Hdz : Zpos (digits2_pos (Pos.iter xO m t)) = 53).
    { rewrite F64Facts.digits2_iter_xO. fold d. lia. }
    apply binary_round_aux_finite; rewrite Hdz; unfold F64.prec; lia.
Qed.

(** float64(n) of a non-zero integer of at most 64 bits is a finite
    non-zero float of the sign of [n]. *)
Lemma of_Z_finite n :
  n <> 0 -> - 2 ^ 64 < n < 2 ^ 64 ->
  exists m e, F64.of_Z n = S754_finite (n <? 0) m e.
Proof.
  intros Hn Hr. unfold F64.of_Z, F64.of_Z_exp, binary_normalize.
  destruct n as [|p|p]; [lia| |].
  - apply binary_round_finite.
    pose proof (F64Facts.digits2_lower p). pose proof (digits2_upper p).
    assert (Zpos (digits2_pos p) <= 64).
    { destruct (Z_le_gt_dec (Zpos (digits2_pos p)) 64); [assumption|exfalso].
      assert (2 ^ 64 <= 2 ^ (Zpos (digits2_pos p) - 1)) by (apply Z.pow_le_mono_r; lia).
      lia. }
    lia.
  - apply binary_round_finite.
    pose proof (F64Facts.digits2_lower p). pose proof (digits2_upper p).
    assert (Zpos (digits2_pos p) <= 64).
    { destruct (Z_le_gt_dec (Zpos (digits2_pos p)) 64); [assumption|exfalso].
      assert (2 ^ 64 <= 2 ^ (Zpos (digits2_pos p) - 1)) by (apply Z.pow_le_mono_r; lia).
      lia. }
    lia.
Qed.

Lemma leb_trans a b c :
  F64.leb a b = true -> F64.leb b c = true -> F64.leb a c = true.
Proof.
  unfold F64.leb, SFleb, SFcompare.
  destruct a as [sa|sa| |sa ma ea], b as [sb|sb| |sb mb eb], c as [sc|sc| |sc mc ec];
    try destruct sa; try destruct sb; try destruct sc;
    try (intros; reflexivity); try (intros; discriminate);
    change (Pos.compare_cont Eq ?x ?y) with (x ?= y)%positive;
    repeat match goal with
           | |- context [(?x ?= ?y)%Z] => destruct (Z.compare_spec x y)
           | |- context [(?x ?= ?y)%positive] => destruct (Pos.compare_spec x y)
           end;
    cbn; intros; try reflexivity; try discriminate; try lia.
Qed.

Lemma mul_nan_l x : F64.mul F64.nan x = F64.nan.
Proof. destruct x; reflexivity. Qed.

Lemma fold_add_In_nan xs : forall acc,
  In F64.nan xs -> fold_left F64.add xs acc = F64.nan.
Proof.
  induction xs as [|x xs IH]; intros acc Hin; cbn [fold_left].
  - destruct Hin.
  - destruct Hin as [->|Hin].
    + rewrite add_nan_r. apply fold_add_nan.
    + apply IH. exact Hin.
Qed.

End F64More.

(** ** Lists *)

Module ListFacts.

Lemma find_app {A : Type} (p : A -> bool) (l1 l2 : list A) :
  find p (l1 ++ l2)%list
  = match find p l1 with
    | Some x => Some x
    | None => find p l2
    end.
Proof.
  induction l1 as [|x l1 IH]; simpl; [reflexivity|].
  destruct (p x); [reflexivity|exact IH].
Qed.

End ListFacts.

(** ** More on the aggregator *)

Module AggregatorProps.

Import Metrics.

Lemma metrics_AddKPI c kpi now now' : metrics (AddKPI c kpi now now') = metrics c.
Proof. reflexivity. Qed.

Lemma kpis_AddKPI c kpi now now' :
  kpis (AddKPI c kpi now now') = (kpis c ++ [KPI.set_LastUpdated kpi now])%list.
Proof. reflexivity. Qed.

Lemma metrics_AddMetric c metric now now' :
  metrics (AddMetric c metric now now')
  = (metrics c ++ [SecurityMetric.set_Timestamp metric now])%list.
Proof. reflexivity. Qed.

Lemma kpis_AddMetric c metric now now' : kpis (AddMetric c metric now now') = kpis c.
Proof. reflexivity. Qed.

(** The scores are functions of the metrics of the collector. *)
Lemma GetComplianceScore_ext c c' :
  metrics c = metrics c' -> GetComplianceScore c = GetComplianceScore c'.
Proof.
  intros H. unfold GetComplianceScore, GetMetricByType. rewrite H. reflexivity.
Qed.

Lemma GetRiskScore_ext c c' :
  metrics c = metrics c' -> GetRiskScore c = GetRiskScore c'.
Proof.
  intros H. unfold GetRiskScore, GetMetricByType. rewrite H. reflexivity.
Qed.

Lemma run_kpis_only calls :
  forallb is_AddKPI calls = true ->
  metrics (run calls) = [] /\ List.length (kpis (run calls)) = List.length calls.
Proof.
  induction calls as [|k calls IH] using rev_ind; intros Hall.
  - split; reflexivity.
  - rewrite forallb_app in Hall. apply andb_true_iff in Hall. destruct Hall as [Hall Hk].
    destruct (IH Hall) as [Hm Hl]. rewrite MetricsSpec.run_snoc.
    destruct k as [metric now now'|kpi now now']; cbn in Hk; [discriminate|].
    cbn [perform]. rewrite metrics_AddKPI, kpis_AddKPI, !length_app, Hl.
    split; [exact Hm|reflexivity].
Qed.

(** X1: a collector that has only received KPIs has both scores at 0 and
    the tier POOR, whatever the KPIs are: the KPIs count in [TotalKPIS] and
    nowhere else. *)
Theorem kpi_only_collector_is_poor (calls : list call) :
  calls <> [] -> forallb is_AddKPI calls = true ->
  let s := GetSummary (run calls) in
  MetricsSummary.TotalMetrics s = 0
  /\ MetricsSummary.TotalKPIS s = Z.of_nat (List.length calls)
  /\ MetricsSummary.ComplianceScore s = F64.zero
  /\ MetricsSummary.RiskScore s = F64.zero
  /\ MetricsSummary.OverallHealth s = "POOR".
Proof.
  intros Hne Hall. destruct (run_kpis_only calls Hall) as [Hm Hl].
  assert (Hcur : summary_current (run calls)).
  { destruct (exists_last Hne) as (calls' & k & ->).
    rewrite MetricsSpec.run_snoc. apply MetricsSpec.perform_current. }
  destruct Hcur as [(Htm & Htk & Hcs & Hrs) Hh]. unfold health_current in Hh.
  assert (Hc0 : GetComplianceScore (run calls) = F64.zero).
  { rewrite (GetComplianceScore_ext _ NewMetricsCollector) by exact Hm. reflexivity. }
  assert (Hr0 : GetRiskScore (run calls) = F64.zero).
  { rewrite (GetRiskScore_ext _ NewMetricsCollector) by exact Hm. reflexivity. }
  cbv zeta. rewrite Htm, Htk, Hcs, Hrs, Hh, Hm, Hl, Hc0, Hr0.
  repeat split.
Qed.

Lemma kpi_only_collector_is_poor_witness :
  let calls := map (fun kpi => CallAddKPI kpi Time.zero Time.zero) GetCommonKPIs in
  MetricsSummary.TotalKPIS (GetSummary (run calls)) = 6
  /\ MetricsSummary.OverallHealth (GetSummary (run calls)) = "POOR".
Proof.
  cbv zeta.
  pose proof (kpi_only_collector_is_poor
                (map (fun kpi => CallAddKPI kpi Time.zero Time.zero) GetCommonKPIs)
                ltac:(discriminate) eq_refl) as H.
  cbv zeta in H. destruct H as (_ & Hk & _ & _ & Hh). split; [exact Hk|exact Hh].
Defined.

(** X2: looking up the key of a KPI just added finds that KPI, stamped
    with the time of the call, when the key was not stored before, and
    still finds the earlier KPI when it was: of two KPIs with one key the
    later is never returned. *)
Theorem AddKPI_then_GetKPI (c : MetricsCollector) (kpi : KPI.t) (now now' : Time.t) :
  (GetKPI c (KPI.Key kpi) = None ->
   GetKPI (AddKPI c kpi now now') (KPI.Key kpi) = Some (KPI.set_LastUpdated kpi now))
  /\ (forall key k, GetKPI c key = Some k -> GetKPI (AddKPI c kpi now now') key = Some k).
Proof.
  unfold GetKPI. rewrite kpis_AddKPI. split.
  - intros Hnone. rewrite ListFacts.find_app, Hnone. cbn [find KPI.set_LastUpdated KPI.Key].
    rewrite String.eqb_refl. reflexivity.
  - intros key k Hsome. rewrite ListFacts.find_app, Hsome. reflexivity.
Qed.

Lemma AddKPI_then_GetKPI_witness :
  GetKPI
    (AddKPI NewMetricsCollector
       (KPI.mk KPI_MTTR "MTTR" "" F64.one F64.one "hours" "" "" Time.zero "Response")
       (Time.mk 2026 1 2 3 4 5 6) Time.zero) KPI_MTTR
  = Some (KPI.mk KPI_MTTR "MTTR" "" F64.one F64.one "hours" "" ""
            (Time.mk 2026 1 2 3 4 5 6) "Response").
Proof.
  exact (proj1 (AddKPI_then_GetKPI NewMetricsCollector
                  (KPI.mk KPI_MTTR "MTTR" "" F64.one F64.one "hours" "" "" Time.zero
                     "Response")
                  (Time.mk 2026 1 2 3 4 5 6) Time.zero) eq_refl).
Defined.

(** X3: [GetKPI] returns a KPI exactly when that KPI is stored under the
    key with no KPI of that key before it; it returns nil exactly when no
    stored KPI has the key. *)
Theorem GetKPI_first_with_key (c : MetricsCollector) (key : KPIKey) :
  (forall k,
     GetKPI c key = Some k
     <-> exists pre post,
           kpis c = (pre ++ k :: post)%list /\ KPI.Key k = key
           /\ forall k', In k' pre -> KPI.Key k' <> key)
  /\ (GetKPI c key = None <-> forall k, In k (kpis c) -> KPI.Key k <> key).
Proof.
  unfold GetKPI. generalize (kpis c) as ks. intros ks. split.
  - induction ks as [|k0 ks IH]; intros k; cbn [find].
    + split; [discriminate|]. intros (pre & post & H & _). destruct pre; discriminate H.
    + destruct (String.eqb_spec (KPI.Key k0) key) as [E|E].
      * split.
        -- intros H. injection H as <-. exists [], ks. repeat split; [exact E|].
           intros k' [].
        -- intros (pre & post & H & Hk & Hpre). destruct pre as [|k1 pre].
           ++ injection H as -> _. reflexivity.
           ++ injection H as <- _. exfalso. apply (Hpre k0); [left; reflexivity|exact E].
      * rewrite IH. split.
        -- intros (pre & post & -> & Hk & Hpre). exists (k0 :: pre), post.
           repeat split; [exact Hk|]. intros k' [<-|Hin]; [exact E|apply Hpre, Hin].
        -- intros (pre & post & H & Hk & Hpre). destruct pre as [|k1 pre].
           ++ injection H as <- _. contradiction.
           ++ injection H as _ ->. exists pre, post. repeat split; [exact Hk|].
              intros k' Hin. apply Hpre. right. exact Hin.
  - induction ks as [|k0 ks IH]; cbn [find].
    + split; [intros _ k []|reflexivity].
    + destruct (String.eqb_spec (KPI.Key k0) key) as [E|E].
      * split; [discriminate|]. intros H. exfalso. apply (H k0); [left; reflexivity|exact E].
      * rewrite IH. split.
        -- intros H k [<-|Hin]; [exact E|apply H, Hin].
        -- intros H k Hin. apply H. right. exact Hin.
Qed.

Lemma GetKPI_first_with_key_witness :
  GetKPI (mkCollector [] GetCommonKPIs MetricsSummary.zero) KPI_DetectionRate = None.
Proof.
  apply (proj2 (GetKPI_first_with_key (mkCollector [] GetCommonKPIs MetricsSummary.zero)
                  KPI_DetectionRate)).
  intros k Hin. cbn in Hin.
  repeat (destruct Hin as [<-|Hin]; [discriminate|]). destruct Hin.
Defined.

(** X4: adding a KPI under another key, or adding a metric, changes no
    lookup: [GetKPI] answers as before. *)
Theorem GetKPI_unchanged_by_other_calls (c : MetricsCollector) (key : KPIKey) :
  (forall kpi now now',
     KPI.Key kpi <> key -> GetKPI (AddKPI c kpi now now') key = GetKPI c key)
  /\ (forall metric now now', GetKPI (AddMetric c metric now now') key = GetKPI c key).
Proof.
  split.
  - intros kpi now now' Hkey. unfold GetKPI. rewrite kpis_AddKPI, ListFacts.find_app.
    destruct (find _ (kpis c)); [reflexivity|]. cbn [find KPI.set_LastUpdated KPI.Key].
    apply String.eqb_neq in Hkey. rewrite Hkey. reflexivity.
  - intros metric now now'. reflexivity.
Qed.

Lemma GetKPI_unchanged_by_other_calls_witness :
  GetKPI (AddKPI NewMetricsCollector
            (KPI.mk KPI_MTTC "MTTC" "" F64.zero F64.zero "" "" "" Time.zero "")
            Time.zero Time.zero) KPI_MTTR
  = GetKPI NewMetricsCollector KPI_MTTR.
Proof.
  apply (proj1 (GetKPI_unchanged_by_other_calls NewMetricsCollector KPI_MTTR)).
  discriminate.
Defined.

Lemma GetMetricByType_AddMetric c metric now now' metricType :
  GetMetricByType (AddMetric c metric now now') metricType
  = (GetMetricByType c metricType
     ++ if String.eqb (SecurityMetric.Type_ metric) metricType
        then [SecurityMetric.set_Timestamp metric now] else [])%list.
Proof.
  unfold GetMetricByType. rewrite metrics_AddMetric, filter_app.
  cbn [filter SecurityMetric.set_Timestamp SecurityMetric.Type_].
  destruct (String.eqb (SecurityMetric.Type_ metric) metricType); reflexivity.
Qed.

(** X5: [AddMetric] appends the metric with its timestamp replaced by
    the time of the call and every other field kept; the metrics of a type
    grow by that metric when it has the type and are unchanged otherwise,
    and [AddKPI] changes no metric. *)
Theorem AddMetric_appends_stamped (c : MetricsCollector) (metric : SecurityMetric.t)
    (now now' : Time.t) :
  GetMetrics (AddMetric c metric now now')
  = (GetMetrics c ++ [SecurityMetric.set_Timestamp metric now])%list
  /\ (forall metricType,
        GetMetricByType (AddMetric c metric now now') metricType
        = (GetMetricByType c metricType
           ++ if String.eqb (SecurityMetric.Type_ metric) metricType
              then [SecurityMetric.set_Timestamp metric now] else [])%list)
  /\ (forall kpi metricType,
        GetMetricByType (AddKPI c kpi now now') metricType = GetMetricByType c metricType).
Proof.
  split; [reflexivity|split].
  - intros metricType. apply GetMetricByType_AddMetric.
  - intros kpi metricType. reflexivity.
Qed.

(** X6: the compliance score changes only when a compliance metric is
    added, and the risk score only when a risk metric is added; metrics of
    other types and KPIs leave them as they were. *)
Theorem scores_unchanged_by_other_types (c : MetricsCollector) :
  (forall metric now now',
     SecurityMetric.Type_ metric <> TypeCompliance ->
     GetComplianceScore (AddMetric c metric now now') = GetComplianceScore c)
  /\ (forall metric now now',
        SecurityMetric.Type_ metric <> TypeRisk ->
        GetRiskScore (AddMetric c metric now now') = GetRiskScore c)
  /\ (forall kpi now now',
        GetComplianceScore (AddKPI c kpi now now') = GetComplianceScore c
        /\ GetRiskScore (AddKPI c kpi now now') = GetRiskScore c).
Proof.
  split; [|split].
  - intros metric now now' Hty. unfold GetComplianceScore.
    rewrite GetMetricByType_AddMetric.
    apply String.eqb_neq in Hty. rewrite Hty, app_nil_r. reflexivity.
  - intros metric now now' Hty. unfold GetRiskScore.
    rewrite GetMetricByType_AddMetric.
    apply String.eqb_neq in Hty. rewrite Hty, app_nil_r. reflexivity.
  - intros kpi now now'. split; reflexivity.
Qed.

Lemma scores_unchanged_by_other_types_witness :
  GetComplianceScore
    (AddMetric (AddMetric NewMetricsCollector
                  (compliance_metric (F64.of_Z 92) (F64.of_Z 100)) Time.zero Time.zero)
       (risk_metric (F64.of_Z 40)) Time.zero Time.zero)
  = GetComplianceScore
      (AddMetric NewMetricsCollector
         (compliance_metric (F64.of_Z 92) (F64.of_Z 100)) Time.zero Time.zero).
Proof.
  apply (proj1 (scores_unchanged_by_other_types _)). discriminate.
Defined.

Lemma percent_of_target_nan metric :
  SecurityMetric.Value metric = F64.nan -> percent_of_target metric = F64.nan.
Proof.
  intros H. unfold percent_of_target. rewrite H, F64More.div_nan_l, F64More.mul_nan_l.
  reflexivity.
Qed.

Lemma counted_average_nan xs : In F64.nan xs -> counted_average xs = F64.nan.
Proof.
  intros Hin. destruct xs as [|x xs]; [destruct Hin|].
  unfold counted_average, fsum. rewrite F64More.fold_add_In_nan by exact Hin.
  apply F64More.div_nan_l.
Qed.

Lemma determineHealth_nan_compliance risk : determineHealth F64.nan risk = "POOR".
Proof. reflexivity. Qed.

Lemma determineHealth_nan_risk compliance : determineHealth compliance F64.nan = "POOR".
Proof.
  unfold determineHealth, F64.geb, F64.leb.
  replace (SFleb F64.nan (F64.of_Z 30)) with false by reflexivity.
  replace (SFleb F64.nan (F64.of_Z 50)) with false by reflexivity.
  replace (SFleb F64.nan (F64.of_Z 70)) with false by reflexivity.
  rewrite !andb_false_r. reflexivity.
Qed.

(** X7: one compliance metric whose value is NaN makes the compliance
    score NaN, and one risk metric whose value is NaN makes the risk score
    NaN, however many other metrics there are; a NaN in either score is
    classified POOR. *)
Theorem nan_value_poisons_score (c : MetricsCollector) (metric : SecurityMetric.t) :
  SecurityMetric.Value metric = F64.nan ->
  (In metric (GetMetricByType c TypeCompliance) ->
   GetComplianceScore c = F64.nan
   /\ forall risk, determineHealth (GetComplianceScore c) risk = "POOR")
  /\ (In metric (GetMetricByType c TypeRisk) ->
      GetRiskScore c = F64.nan
      /\ forall compliance, determineHealth compliance (GetRiskScore c) = "POOR").
Proof.
  intros Hnan. split; intros Hin.
  - assert (H : GetComplianceScore c = F64.nan).
    { rewrite MetricsSpec.GetComplianceScore_counted. apply counted_average_nan.
      rewrite <- (percent_of_target_nan metric Hnan). apply in_map. exact Hin. }
    split; [exact H|]. intros risk. rewrite H. apply determineHealth_nan_compliance.
  - assert (H : GetRiskScore c = F64.nan).
    { rewrite MetricsSpec.GetRiskScore_counted. apply counted_average_nan.
      rewrite <- Hnan. apply in_map. exact Hin. }
    split; [exact H|]. intros compliance. rewrite H. apply determineHealth_nan_risk.
Qed.

Lemma nan_value_poisons_score_witness :
  GetComplianceScore
    (mkCollector [compliance_metric (F64.of_Z 92) (F64.of_Z 100);
                  compliance_metric F64.nan (F64.of_Z 100)] [] MetricsSummary.zero)
  = F64.nan.
Proof.
  apply (proj1 (nan_value_poisons_score
                  (mkCollector [compliance_metric (F64.of_Z 92) (F64.of_Z 100);
                                compliance_metric F64.nan (F64.of_Z 100)] []
                     MetricsSummary.zero)
                  (compliance_metric F64.nan (F64.of_Z 100)) eq_refl)).
  right. left. reflexivity.
Defined.

Lemma tier_rank_determineHealth compliance risk :
  tier_rank (determineHealth compliance risk)
  = (if F64.geb compliance (F64.of_Z 90) && F64.leb risk (F64.of_Z 30) then 3
     else if F64.geb compliance (F64.of_Z 70) && F64.leb risk (F64.of_Z 50) then 2
     else if F64.geb compliance (F64.of_Z 50) && F64.leb risk (F64.of_Z 70) then 1
     else 0)%nat.
Proof.
  unfold determineHealth.
  destruct (F64.geb compliance (F64.of_Z 90) && F64.leb risk (F64.of_Z 30));
  destruct (F64.geb compliance (F64.of_Z 70) && F64.leb risk (F64.of_Z 50));
  destruct (F64.geb compliance (F64.of_Z 50) && F64.leb risk (F64.of_Z 70));
  reflexivity.
Qed.

(** X8: the health tier is monotone: a collector whose compliance score is
    at least as high and whose risk score is at most as high never gets a
    worse tier. *)
Theorem determineHealth_monotone (compliance risk compliance' risk' : float64) :
  F64.leb compliance compliance' = true -> F64.leb risk' risk = true ->
  (tier_rank (determineHealth compliance risk)
   <= tier_rank (determineHealth compliance' risk'))%nat.
Proof.
  intros Hc Hr. rewrite !tier_rank_determineHealth.
  assert (Hrow : forall cmin rmax,
             F64.geb compliance cmin && F64.leb risk rmax = true ->
             F64.geb compliance' cmin && F64.leb risk' rmax = true).
  { intros cmin rmax H. apply andb_true_iff in H. destruct H as [H1 H2].
    apply andb_true_iff. unfold F64.geb in *. split.
    - exact (F64More.leb_trans _ _ _ H1 Hc).
    - exact (F64More.leb_trans _ _ _ Hr H2). }
  pose proof (Hrow (F64.of_Z 90) (F64.of_Z 30)) as H3.
  pose proof (Hrow (F64.of_Z 70) (F64.of_Z 50)) as H2.
  pose proof (Hrow (F64.of_Z 50) (F64.of_Z 70)) as H1.
  destruct (F64.geb compliance (F64.of_Z 90) && F64.leb risk (F64.of_Z 30)).
  { rewrite H3 by reflexivity. lia. }
  destruct (F64.geb compliance (F64.of_Z 70) && F64.leb risk (F64.of_Z 50)).
  { rewrite H2 by reflexivity.
    destruct (F64.geb compliance' (F64.of_Z 90) && F64.leb risk' (F64.of_Z 30)); lia. }
  destruct (F64.geb compliance (F64.of_Z 50) && F64.leb risk (F64.of_Z 70)).
  { rewrite H1 by reflexivity.
    destruct (F64.geb compliance' (F64.of_Z 90) && F64.leb risk' (F64.of_Z 30));
    destruct (F64.geb compliance' (F64.of_Z 70) && F64.leb risk' (F64.of_Z 50)); lia. }
  lia.
Qed.

Lemma determineHealth_monotone_witness :
  (tier_rank (determineHealth (F64.of_Z 75) (F64.of_Z 45))
   <= tier_rank (determineHealth (F64.of_Z 95) (F64.of_Z 20)))%nat.
Proof.
  apply determineHealth_monotone; reflexivity.
Defined.

Lemma int_range_64 n : - 2 ^ 63 <= n < 2 ^ 63 -> - 2 ^ 64 < n < 2 ^ 64.
Proof. change (2 ^ 64) with (2 * 2 ^ 63). lia. Qed.

(** X9: the three rate helpers are one function.  With a total of 0 the
    rate is 0 and nothing is divided; a non-zero count out of itself is
    exactly 100, and 0 out of a positive total is exactly 0, for all Go
    ints. *)
Theorem rate_edge_values :
  (forall part total,
     CalculateRemediationRate part total = CalculateCoverage part total
     /\ CalculateDetectionRate part total = CalculateCoverage part total)
  /\ (forall part, CalculateCoverage part 0 = F64.zero)
  /\ (forall n, n <> 0 -> - 2 ^ 63 <= n < 2 ^ 63 -> CalculateCoverage n n = F64.of_Z 100)
  /\ (forall total, 0 < total < 2 ^ 63 -> CalculateCoverage 0 total = F64.zero).
Proof.
  split; [|split; [|split]].
  - intros part total. split; reflexivity.
  - intros part. reflexivity.
  - intros n Hn Hr. unfold CalculateCoverage.
    apply Z.eqb_neq in Hn as Hn'. rewrite Hn'.
    destruct (F64More.of_Z_finite n Hn (int_range_64 n Hr)) as (m & e & ->).
    rewrite F64More.div_self. reflexivity.
  - intros total Hr. unfold CalculateCoverage.
    replace (total =? 0)%Z with false by (symmetry; apply Z.eqb_neq; lia).
    destruct (F64More.of_Z_finite total ltac:(lia) (int_range_64 total ltac:(lia)))
      as (m & e & ->).
    replace (total <? 0)%Z with false by (symmetry; apply Z.ltb_ge; lia).
    reflexivity.
Qed.

Lemma rate_edge_values_witness :
  CalculateCoverage 9007199254740993 9007199254740993 = F64.of_Z 100
  /\ CalculateCoverage 0 7 = F64.zero.
Proof.
  split.
  - apply (proj1 (proj2 (proj2 rate_edge_values))); lia.
  - apply (proj2 (proj2 (proj2 rate_edge_values))). lia.
Defined.

(** X10: the three mean helpers are one function: 0 for no sample, else
    the sum from the left divided by the number of samples.  The risk
    score of a collector is that mean of the values of its risk metrics
    (for up to 2^53 of them). *)
Theorem mean_helpers_agree (c : MetricsCollector) :
  (forall xs, CalculateMTTD xs = CalculateMTTR xs /\ CalculateMTTC xs = CalculateMTTR xs)
  /\ (forall xs, CalculateMTTR xs = simple_average xs)
  /\ (Z.of_nat (List.length (GetMetricByType c TypeRisk)) <= 2 ^ 53 ->
      GetRiskScore c
      = CalculateMTTR (map SecurityMetric.Value (GetMetricByType c TypeRisk))).
Proof.
  assert (Hmean : forall xs, CalculateMTTR xs = simple_average xs).
  { intros xs. destruct xs; reflexivity. }
  split; [|split].
  - intros xs. split; reflexivity.
  - exact Hmean.
  - intros Hlen. rewrite Hmean. apply MetricsSpec.GetRiskScore_average. exact Hlen.
Qed.

Lemma mean_helpers_agree_witness :
  GetRiskScore
    (mkCollector [risk_metric (F64.of_Z 40); risk_metric (F64.of_Z 51)] [] MetricsSummary.zero)
  = CalculateMTTR [F64.of_Z 40; F64.of_Z 51].
Proof.
  apply (proj2 (proj2 (mean_helpers_agree
                         (mkCollector [risk_metric (F64.of_Z 40); risk_metric (F64.of_Z 51)]
                            [] MetricsSummary.zero)))).
  vm_compute. discriminate.
Defined.

Lemma summary_counts calls :
  MetricsSummary.TotalMetrics (GetSummary (run calls))
  = Z.of_nat (List.length (metrics (run calls)))
  /\ MetricsSummary.TotalKPIS (GetSummary (run calls))
     = Z.of_nat (List.length (kpis (run calls))).
Proof.
  destruct calls as [|k calls] using rev_ind.
  - split; reflexivity.
  - rewrite MetricsSpec.run_snoc.
    destruct (MetricsSpec.perform_current (run calls) k) as [(Htm & Htk & _) _].
    split; assumption.
Qed.

(** X26: a collector whose only compliance metric has a finite non-zero
    value equal to its target scores exactly 100, and with no risk metric
    its tier is HEALTHY after the next update of the summary. *)
Theorem single_metric_on_target (c : MetricsCollector) (metric : SecurityMetric.t)
    (s : bool) (m : positive) (e : Z) :
  GetMetricByType c TypeCompliance = [metric] ->
  SecurityMetric.Value metric = S754_finite s m e ->
  SecurityMetric.Target metric = S754_finite s m e ->
  GetComplianceScore c = F64.of_Z 100
  /\ (GetMetricByType c TypeRisk = [] ->
      forall now,
        MetricsSummary.OverallHealth (GetSummary (updateSummary c now)) = "HEALTHY").
Proof.
  intros Hms Hv Ht.
  assert (Hc : GetComplianceScore c = F64.of_Z 100).
  { rewrite MetricsSpec.GetComplianceScore_counted, Hms. cbn [map].
    unfold percent_of_target. rewrite Hv, Ht, F64More.div_self. reflexivity. }
  split; [exact Hc|]. intros Hrisk now.
  assert (Hr : GetRiskScore c = F64.zero).
  { rewrite MetricsSpec.GetRiskScore_counted, Hrisk. reflexivity. }
  destruct (MetricsSpec.updateSummary_current c now) as [_ Hh].
  unfold health_current in Hh. rewrite Hh.
  rewrite (GetComplianceScore_ext (updateSummary c now) c) by reflexivity.
  rewrite (GetRiskScore_ext (updateSummary c now) c) by reflexivity.
  rewrite Hc, Hr. reflexivity.
Qed.

Lemma single_metric_on_target_witness :
  GetComplianceScore
    (mkCollector [compliance_metric (F64.of_Z_exp 7 (-3)) (F64.of_Z_exp 7 (-3))] []
       MetricsSummary.zero)
  = F64.of_Z 100.
Proof.
  apply (proj1 (single_metric_on_target
                  (mkCollector [compliance_metric (F64.of_Z_exp 7 (-3)) (F64.of_Z_exp 7 (-3))]
                     [] MetricsSummary.zero)
                  (compliance_metric (F64.of_Z_exp 7 (-3)) (F64.of_Z_exp 7 (-3)))
                  false 7881299347898368 (-53) eq_refl eq_refl eq_refl)).
Defined.

(** X25: the collections of a collector are exactly the records it was
    handed, in call order and each with the stamp of its call: nothing is
    dropped, merged or reordered, also when two records share an id or a
    key; the totals of the summary add up to the number of calls. *)
Theorem collections_are_the_calls_in_order (calls : list call) :
  GetMetrics (run calls) = metrics_of_calls calls
  /\ GetKPIS (run calls) = kpis_of_calls calls
  /\ MetricsSummary.TotalMetrics (GetSummary (run calls))
     + MetricsSummary.TotalKPIS (GetSummary (run calls))
     = Z.of_nat (List.length calls).
Proof.
  assert (H : GetMetrics (run calls) = metrics_of_calls calls
              /\ GetKPIS (run calls) = kpis_of_calls calls
              /\ (List.length (metrics (run calls)) + List.length (kpis (run calls))
                  = List.length calls)%nat).
  { induction calls as [|k calls IH] using rev_ind.
    - repeat split.
    - destruct IH as (Hm & Hk & Hl). rewrite MetricsSpec.run_snoc.
      unfold metrics_of_calls, kpis_of_calls, GetMetrics, GetKPIS in *.
      rewrite !flat_map_app, <- Hm, <- Hk, length_app. cbn [flat_map List.length].
      destruct k as [metric now now'|kpi now now']; cbn [perform].
      + rewrite metrics_AddMetric, kpis_AddMetric, !app_nil_r, length_app.
        cbn [List.length]. repeat split. lia.
      + rewrite metrics_AddKPI, kpis_AddKPI, !app_nil_r, length_app.
        cbn [List.length]. repeat split. lia. }
  destruct H as (Hm & Hk & Hl). split; [exact Hm|split; [exact Hk|]].
  destruct (summary_counts calls) as [Htm Htk].
  rewrite Htm, Htk. lia.
Qed.

End AggregatorProps.

(** ** More on the registry of reports *)

Module RegistryProps.

Import Reporting.

Section ModifyFirst.

Variable f : Report.t -> Report.t.
Hypothesis f_keeps_id : forall r, Report.ID (f r) = Report.ID r.

Lemma ids_modify_first reportID rs :
  map Report.ID (modify_first reportID f rs) = map Report.ID rs.
Proof.
  induction rs as [|r rs IH]; cbn [modify_first map]; [reflexivity|].
  destruct (String.eqb (Report.ID r) reportID); cbn [map].
  - rewrite f_keeps_id. reflexivity.
  - rewrite IH. reflexivity.
Qed.

Lemma find_modify_first_same reportID rs r :
  find (fun r => String.eqb (Report.ID r) reportID) rs = Some r ->
  find (fun r => String.eqb (Report.ID r) reportID) (modify_first reportID f rs)
  = Some (f r).
Proof.
  induction rs as [|r0 rs IH]; cbn [modify_first find]; [discriminate|].
  destruct (String.eqb (Report.ID r0) reportID) eqn:E; cbn [find].
  - intros H. injection H as <-. rewrite f_keeps_id, E. reflexivity.
  - rewrite E. exact IH.
Qed.

Lemma find_modify_first_other reportID reportID' rs :
  reportID' <> reportID ->
  find (fun r => String.eqb (Report.ID r) reportID') (modify_first reportID f rs)
  = find (fun r => String.eqb (Report.ID r) reportID') rs.
Proof.
  intros Hne. induction rs as [|r0 rs IH]; cbn [modify_first find]; [reflexivity|].
  destruct (String.eqb_spec (Report.ID r0) reportID) as [E|E]; cbn [find].
  - rewrite f_keeps_id.
    replace (String.eqb (Report.ID r0) reportID') with false; [reflexivity|].
    symmetry. apply String.eqb_neq. congruence.
  - rewrite IH. reflexivity.
Qed.

End ModifyFirst.

Lemma modify_first_split reportID f pre r post :
  ~ In reportID (map Report.ID pre) -> Report.ID r = reportID ->
  modify_first reportID f (pre ++ r :: post) = (pre ++ f r :: post)%list.
Proof.
  intros Hpre Hid. induction pre as [|r0 pre IH]; cbn [List.app modify_first].
  - rewrite Hid, String.eqb_refl. reflexivity.
  - cbn [map In] in Hpre.
    replace (String.eqb (Report.ID r0) reportID) with false.
    + rewrite IH; [reflexivity|]. intros Hin. apply Hpre. right. exact Hin.
    + symmetry. apply String.eqb_neq. intros E. apply Hpre. left. exact E.
Qed.


Lemma modify_first_comm id1 id2 f h rs :
  (forall r, Report.ID (f r) = Report.ID r) ->
  (forall r, Report.ID (h r) = Report.ID r) ->
  (id1 <> id2 \/ forall r, f (h r) = h (f r)) ->
  modify_first id1 f (modify_first id2 h rs) = modify_first id2 h (modify_first id1 f rs).
Proof.
  intros Hf Hh Hcomm. induction rs as [|r rs IH]; cbn [modify_first]; [reflexivity|].
  destruct (String.eqb (Report.ID r) id1) eqn:E1;
    destruct (String.eqb (Report.ID r) id2) eqn:E2; cbn [modify_first].
  - rewrite Hf, Hh, E1, E2.
    destruct Hcomm as [Hne|Hc]; [|rewrite Hc; reflexivity].
    apply String.eqb_eq in E1, E2. congruence.
  - rewrite Hf, E1, E2. reflexivity.
  - rewrite Hh, E1, E2. reflexivity.
  - rewrite E1, E2, IH. reflexivity.
Qed.

(** X11: each of the four mutators changes the first report that carries
    the id and nothing else; a later report with the same id is left as it
    is. *)
Theorem mutators_change_first_match_only (pre post : list Report.t) (r : Report.t)
    (reportID : string) :
  ~ In reportID (map Report.ID pre) -> Report.ID r = reportID ->
  (forall metric,
     AddMetric (mkGenerator (pre ++ r :: post)) reportID metric
     = mkGenerator (pre ++ Report.set_Metrics r (Report.Metrics r ++ [metric]) :: post))
  /\ (forall kpi,
        AddKPI (mkGenerator (pre ++ r :: post)) reportID kpi
        = mkGenerator (pre ++ Report.set_KPIS r (Report.KPIS r ++ [kpi]) :: post))
  /\ (forall summary,
        SetExecutiveSummary (mkGenerator (pre ++ r :: post)) reportID summary
        = mkGenerator (pre ++ Report.set_Executive r summary :: post))
  /\ (forall summary,
        SetTechnicalSummary (mkGenerator (pre ++ r :: post)) reportID summary
        = mkGenerator (pre ++ Report.set_Technical r summary :: post)).
Proof.
  intros Hpre Hid.
  unfold AddMetric, AddKPI, SetExecutiveSummary, SetTechnicalSummary. cbn [reports].
  repeat split; intros; rewrite modify_first_split by assumption; reflexivity.
Qed.

Lemma mutators_change_first_match_only_witness :
  AddMetric (mkGenerator [sample_report; sample_report]) "rpt-20261031120000" sample_metric
  = mkGenerator
      [Report.set_Metrics sample_report [sample_metric; sample_metric]; sample_report].
Proof.
  apply (proj1 (mutators_change_first_match_only [] [sample_report] sample_report
                  "rpt-20261031120000" (fun H => H) eq_refl)).
Defined.

(** X12: the mutators never change the ids of the registry nor their
    order, and [GenerateReport] adds exactly one id, at the end. *)
Theorem ids_of_registry (g : ReportGenerator) (reportID : string) :
  (forall metric, ids (AddMetric g reportID metric) = ids g)
  /\ (forall kpi, ids (AddKPI g reportID kpi) = ids g)
  /\ (forall summary, ids (SetExecutiveSummary g reportID summary) = ids g)
  /\ (forall summary, ids (SetTechnicalSummary g reportID summary) = ids g)
  /\ (forall title description format now now',
        ids (fst (GenerateReport g title description format now now'))
        = (ids g ++ [("rpt-" ++ Time.Format_compact now)%string])%list).
Proof.
  unfold ids, AddMetric, AddKPI, SetExecutiveSummary, SetTechnicalSummary, GenerateReport.
  cbn [reports fst].
  repeat split; intros; try (apply ids_modify_first; reflexivity).
  rewrite map_app. reflexivity.
Qed.

(** X13: after a mutator, [GetReport] of the id returns the report it
    returned before with the line item appended at the end of its
    sequence, or with the summary block replaced. *)
Theorem GetReport_after_mutator (g : ReportGenerator) (reportID : string) (r : Report.t) :
  GetReport g reportID = Some r ->
  (forall metric,
     GetReport (AddMetric g reportID metric) reportID
     = Some (Report.set_Metrics r (Report.Metrics r ++ [metric])))
  /\ (forall kpi,
        GetReport (AddKPI g reportID kpi) reportID
        = Some (Report.set_KPIS r (Report.KPIS r ++ [kpi])))
  /\ (forall summary,
        GetReport (SetExecutiveSummary g reportID summary) reportID
        = Some (Report.set_Executive r summary))
  /\ (forall summary,
        GetReport (SetTechnicalSummary g reportID summary) reportID
        = Some (Report.set_Technical r summary)).
Proof.
  unfold GetReport, AddMetric, AddKPI, SetExecutiveSummary, SetTechnicalSummary.
  cbn [reports]. intros Hget. split; [|split; [|split]].
  - intros metric.
    exact (find_modify_first_same
             (fun r => Report.set_Metrics r (Report.Metrics r ++ [metric])%list)
             (fun _ => eq_refl) _ _ _ Hget).
  - intros kpi.
    exact (find_modify_first_same
             (fun r => Report.set_KPIS r (Report.KPIS r ++ [kpi])%list)
             (fun _ => eq_refl) _ _ _ Hget).
  - intros summary.
    exact (find_modify_first_same (fun r => Report.set_Executive r summary)
             (fun _ => eq_refl) _ _ _ Hget).
  - intros summary.
    exact (find_modify_first_same (fun r => Report.set_Technical r summary)
             (fun _ => eq_refl) _ _ _ Hget).
Qed.

Lemma GetReport_after_mutator_witness :
  GetReport (AddKPI (mkGenerator [sample_report]) "rpt-20261031120000" sample_kpi)
    "rpt-20261031120000"
  = Some (Report.set_KPIS sample_report [sample_kpi; sample_kpi]).
Proof.
  apply (proj1 (proj2 (GetReport_after_mutator (mkGenerator [sample_report])
                         "rpt-20261031120000" sample_report eq_refl))).
Defined.

(** X14: a mutator called with one id changes what [GetReport] returns for
    no other id. *)
Theorem GetReport_other_id_unchanged (g : ReportGenerator) (reportID reportID' : string) :
  reportID' <> reportID ->
  (forall metric, GetReport (AddMetric g reportID metric) reportID' = GetReport g reportID')
  /\ (forall kpi, GetReport (AddKPI g reportID kpi) reportID' = GetReport g reportID')
  /\ (forall summary,
        GetReport (SetExecutiveSummary g reportID summary) reportID' = GetReport g reportID')
  /\ (forall summary,
        GetReport (SetTechnicalSummary g reportID summary) reportID' = GetReport g reportID').
Proof.
  unfold GetReport, AddMetric, AddKPI, SetExecutiveSummary, SetTechnicalSummary.
  cbn [reports]. intros Hne.
  repeat split; intros; apply find_modify_first_other; solve [exact Hne | reflexivity].
Qed.

Lemma GetReport_other_id_unchanged_witness :
  GetReport (AddMetric (mkGenerator [sample_report]) "rpt-other" sample_metric)
    "rpt-20261031120000"
  = GetReport (mkGenerator [sample_report]) "rpt-20261031120000".
Proof.
  apply (proj1 (GetReport_other_id_unchanged (mkGenerator [sample_report]) "rpt-other"
                  "rpt-20261031120000" ltac:(discriminate))).
Defined.

(** X15: [GenerateReport] stores the new report after the others.  When
    its id is new, [GetReport] of that id returns the new report; every id
    that resolved before resolves to the same report as before. *)
Theorem GenerateReport_then_GetReport (g : ReportGenerator) (title description : string)
    (format : ReportFormat) (now now' : Time.t) :
  let g' := fst (GenerateReport g title description format now now') in
  let r := snd (GenerateReport g title description format now now') in
  GetReports g' = (GetReports g ++ [r])%list
  /\ (~ In (Report.ID r) (ids g) -> GetReport g' (Report.ID r) = Some r)
  /\ (forall reportID r0, GetReport g reportID = Some r0 -> GetReport g' reportID = Some r0)
  /\ (exists r0, GetReport g' (Report.ID r) = Some r0 /\ Report.ID r0 = Report.ID r).
Proof.
  cbv zeta. unfold GenerateReport, GetReport, GetReports. cbn [fst snd reports Report.ID].
  split; [reflexivity|split; [|split]].
  - intros Hnew. rewrite ListFacts.find_app, (ReportingSpec.find_absent _ _ Hnew).
    cbn [find Report.ID]. rewrite String.eqb_refl. reflexivity.
  - intros reportID r0 Hget. rewrite ListFacts.find_app, Hget. reflexivity.
  - rewrite ListFacts.find_app.
    destruct (find _ (reports g)) as [r0|] eqn:Hf.
    + exists r0. split; [reflexivity|].
      apply find_some in Hf. destruct Hf as [_ Hid]. apply String.eqb_eq in Hid. exact Hid.
    + cbn [find Report.ID]. rewrite String.eqb_refl. eexists. split; reflexivity.
Qed.

Lemma GenerateReport_then_GetReport_witness :
  GetReport (fst (GenerateReport NewReportGenerator "Weekly" "" FormatCSV sample_time
                    sample_time_later)) "rpt-20261031120000"
  = Some (blank_report "rpt-20261031120000" "Weekly" "" FormatCSV sample_time_later).
Proof.
  apply (proj1 (proj2 (GenerateReport_then_GetReport NewReportGenerator "Weekly" ""
                         FormatCSV sample_time sample_time_later))).
  intros [].
Defined.



(** X17: the mutators commute: appending a metric line item and appending
    a KPI line item, or appending a line item and setting a summary block,
    give the same registry in either order, for any two ids; two metric
    line items for different ids can be appended in either order. *)
Theorem mutators_commute (g : ReportGenerator) (id1 id2 : string) :
  (forall metric kpi,
     AddKPI (AddMetric g id1 metric) id2 kpi = AddMetric (AddKPI g id2 kpi) id1 metric)
  /\ (forall metric summary,
        SetExecutiveSummary (AddMetric g id1 metric) id2 summary
        = AddMetric (SetExecutiveSummary g id2 summary) id1 metric)
  /\ (forall kpi summary,
        SetTechnicalSummary (AddKPI g id1 kpi) id2 summary
        = AddKPI (SetTechnicalSummary g id2 summary) id1 kpi)
  /\ (id1 <> id2 ->
      forall m1 m2,
        AddMetric (AddMetric g id1 m1) id2 m2 = AddMetric (AddMetric g id2 m2) id1 m1).
Proof.
  unfold AddKPI, AddMetric, SetExecutiveSummary, SetTechnicalSummary. cbn [reports].
  repeat split; intros; f_equal; apply modify_first_comm;
    try reflexivity; try (right; reflexivity); left; congruence.
Qed.

Lemma mutators_commute_witness :
  AddMetric (AddMetric (mkGenerator [sample_report]) "rpt-a" sample_metric)
    "rpt-20261031120000" sample_metric
  = AddMetric (AddMetric (mkGenerator [sample_report]) "rpt-20261031120000" sample_metric)
      "rpt-a" sample_metric.
Proof.
  apply (proj2 (proj2 (proj2 (mutators_commute (mkGenerator [sample_report]) "rpt-a"
                                "rpt-20261031120000")))).
  discriminate.
Defined.

Lemma set_Metrics_app r ms ms' :
  Report.set_Metrics (Report.set_Metrics r (Report.Metrics r ++ ms))
    (Report.Metrics (Report.set_Metrics r (Report.Metrics r ++ ms)) ++ ms')
  = Report.set_Metrics r (Report.Metrics r ++ ms ++ ms').
Proof. unfold Report.set_Metrics. cbn. rewrite <- app_assoc. reflexivity. Qed.

Lemma set_Metrics_same r : Report.set_Metrics r (Report.Metrics r ++ []) = r.
Proof. destruct r. unfold Report.set_Metrics. cbn. rewrite app_nil_r. reflexivity. Qed.

(** X18: metric line items added one after the other to a stored report
    end up after the ones it had, in the order of the calls. *)
Theorem AddMetric_sequence_keeps_order (g : ReportGenerator) (reportID : string)
    (r : Report.t) (ms : list MetricData.t) :
  GetReport g reportID = Some r ->
  GetReport (fold_left (fun g metric => AddMetric g reportID metric) ms g) reportID
  = Some (Report.set_Metrics r (Report.Metrics r ++ ms)).
Proof.
  revert g r. induction ms as [|m ms IH]; intros g r Hget; cbn [fold_left].
  - rewrite set_Metrics_same. exact Hget.
  - rewrite (IH (AddMetric g reportID m)
               (Report.set_Metrics r (Report.Metrics r ++ [m]))).
    + rewrite set_Metrics_app. reflexivity.
    + unfold GetReport, AddMetric in *. cbn [reports].
      exact (find_modify_first_same
               (fun r => Report.set_Metrics r (Report.Metrics r ++ [m])%list)
               (fun _ => eq_refl) _ _ _ Hget).
Qed.

Lemma AddMetric_sequence_keeps_order_witness :
  GetReport
    (fold_left (fun g metric => AddMetric g "rpt-20261031120000" metric) GetCommonMetrics
       (mkGenerator [sample_report])) "rpt-20261031120000"
  = Some (Report.set_Metrics sample_report (sample_metric :: GetCommonMetrics)).
Proof.
  apply (AddMetric_sequence_keeps_order (mkGenerator [sample_report])
           "rpt-20261031120000" sample_report GetCommonMetrics eq_refl).
Defined.

Lemma join_app xs ys : Fmt.join (xs ++ ys) = Fmt.join xs ++ Fmt.join ys.
Proof.
  induction xs as [|x xs IH]; cbn [Fmt.join fold_right List.app].
  - reflexivity.
  - fold (Fmt.join (xs ++ ys)). fold (Fmt.join xs). rewrite IH, FmtFacts.append_assoc.
    reflexivity.
Qed.

Lemma GenerateCSVReport_rows report :
  GenerateCSVReport report = csv_header ++ Fmt.join (map csv_row (Report.Metrics report)).
Proof.
  unfold GenerateCSVReport. cbv zeta.
  apply ReportingSpec.fold_left_append. intros acc metric.
  unfold csv_row. ReportingSpec.render_normalize. reflexivity.
Qed.

(** X19: the CSV rendering grows at its end only: with further metric line
    items appended to a report, the rendering is the former rendering
    followed by one row per new item. *)
Theorem GenerateCSVReport_incremental (report : Report.t) (ms : list MetricData.t) :
  GenerateCSVReport (Report.set_Metrics report (Report.Metrics report ++ ms))
  = GenerateCSVReport report ++ Fmt.join (map csv_row ms).
Proof.
  rewrite !GenerateCSVReport_rows. cbn [Report.set_Metrics Report.Metrics].
  rewrite map_app, join_app, FmtFacts.append_assoc. reflexivity.
Qed.

End RegistryProps.

(** ** More on the renderings *)

Module RenderProps.

Import Reporting.

(** A loop that numbers its items from [k + 1] and appends one block per
    item renders the blocks in order after what was there before. *)
Lemma numbered_loop {A : Type} (step : Z * string -> A -> Z * string)
    (block : Z * A -> string)
    (Hstep : forall i acc x, step (i, acc) x = (i + 1, acc ++ block (i + 1, x)))
    (xs : list A) : forall k acc,
  snd (fold_left step xs (Z.of_nat k, acc))
  = acc ++ Fmt.join (map block (combine (map Z.of_nat (seq (S k) (List.length xs))) xs)).
Proof.
  induction xs as [|x xs IH]; intros k acc;
    cbn [fold_left List.length seq map combine Fmt.join fold_right snd].
  - rewrite FmtFacts.append_nil_r. reflexivity.
  - rewrite Hstep. replace (Z.of_nat k + 1) with (Z.of_nat (S k)) by lia.
    rewrite IH, FmtFacts.append_assoc. reflexivity.
Qed.

Lemma numbered_loop_from_0 {A : Type} (step : Z * string -> A -> Z * string)
    (block : Z * A -> string)
    (Hstep : forall i acc x, step (i, acc) x = (i + 1, acc ++ block (i + 1, x)))
    (xs : list A) (acc : string) :
  snd (fold_left step xs (0, acc)) = acc ++ Fmt.join (map block (numbered xs)).
Proof. exact (numbered_loop step block Hstep xs 0%nat acc). Qed.

Lemma technical_metric_step_block i acc metric :
  technical_metric_step (i, acc) metric
  = (i + 1, acc ++ technical_metric_block (i + 1, metric)).
Proof.
  unfold technical_metric_step, technical_metric_block. cbv zeta. f_equal.
  ReportingSpec.render_normalize. reflexivity.
Qed.

Lemma technical_kpi_step_block i acc kpi :
  technical_kpi_step (i, acc) kpi = (i + 1, acc ++ technical_kpi_block (i + 1, kpi)).
Proof.
  unfold technical_kpi_step, technical_kpi_block. cbv zeta. f_equal.
  ReportingSpec.render_normalize. reflexivity.
Qed.

Lemma numbered_step_line i acc item :
  numbered_step (i, acc) item = (i + 1, acc ++ numbered_line (i + 1, item)).
Proof. reflexivity. Qed.

(** X20: the technical report is its header and summary lines, then, when
    there are metric line items, the title "Security Metrics:" and one
    block per item numbered from 1 in order, then likewise the KPI line
    items; a sequence without items leaves no trace, not even its title. *)
Theorem GenerateTechnicalReport_sections (report : Report.t) :
  GenerateTechnicalReport report
  = GenerateTechnicalReport (with_line_items report [] [])
    ++ titled_blocks "Security Metrics:" technical_metric_block (Report.Metrics report)
    ++ titled_blocks "Key Performance Indicators:" technical_kpi_block (Report.KPIS report).
Proof.
  destruct report as [id title descr format created ms ks ex te recs].
  unfold GenerateTechnicalReport, with_line_items, titled_blocks.
  cbn [Report.Metrics Report.KPIS Report.set_Metrics Report.set_KPIS Report.ID
         Report.Technical Report.Executive Report.Title Report.CreatedAt
         Report.Description Report.Format Report.Recommendations].
  cbv zeta.
  destruct ms as [|m ms]; destruct ks as [|k ks];
    cbn [List.length Nat.ltb Nat.leb];
    rewrite ?(numbered_loop_from_0 technical_metric_step technical_metric_block
                technical_metric_step_block),
            ?(numbered_loop_from_0 technical_kpi_step technical_kpi_block
                technical_kpi_step_block);
    rewrite ?FmtFacts.append_assoc, ?FmtFacts.append_nil_r; reflexivity.
Qed.

Lemma numbered_section_loop title items acc trailer :
  (if (0 <? List.length items)%nat
   then snd (fold_left numbered_step items (0, acc ++ title ++ Fmt.nl)) ++ trailer
   else acc)
  = acc ++ numbered_section title items trailer.
Proof.
  destruct items as [|item items].
  - cbn. rewrite FmtFacts.append_nil_r. reflexivity.
  - replace (0 <? List.length (item :: items))%nat with true by reflexivity.
    rewrite (numbered_loop_from_0 numbered_step numbered_line numbered_step_line).
    unfold numbered_section. rewrite !FmtFacts.append_assoc. reflexivity.
Qed.

Lemma numbered_section_loop_last title items acc :
  (if (0 <? List.length items)%nat
   then snd (fold_left numbered_step items (0, acc ++ title ++ Fmt.nl))
   else acc)
  = acc ++ numbered_section title items "".
Proof.
  destruct items as [|item items].
  - cbn. rewrite FmtFacts.append_nil_r. reflexivity.
  - replace (0 <? List.length (item :: items))%nat with true by reflexivity.
    rewrite (numbered_loop_from_0 numbered_step numbered_line numbered_step_line).
    unfold numbered_section. rewrite !FmtFacts.append_assoc, FmtFacts.append_nil_r.
    reflexivity.
Qed.

(** X21: the executive report is its header, the three score lines and
    then the four numbered lists Top Concerns, Top Achievements,
    Recommendations and Action Items, each numbered from 1 in order and
    each left out with its title when it is empty; the first three are
    followed by an empty line, the last one is not. *)
Theorem GenerateExecutiveReport_sections (report : Report.t) :
  GenerateExecutiveReport report
  = GenerateExecutiveReport (executive_head report)
    ++ numbered_section "Top Concerns:"
         (ExecutiveSummary.TopConcerns (Report.Executive report)) Fmt.nl
    ++ numbered_section "Top Achievements:"
         (ExecutiveSummary.TopAchievements (Report.Executive report)) Fmt.nl
    ++ numbered_section "Recommendations:"
         (ExecutiveSummary.Recommendations (Report.Executive report)) Fmt.nl
    ++ numbered_section "Action Items:"
         (ExecutiveSummary.ActionItems (Report.Executive report)) "".
Proof.
  destruct report as [id title descr format created ms ks ex te recs].
  destruct ex as [health cs rs concerns achievements recommendations actions].
  unfold GenerateExecutiveReport at 1. cbv zeta.
  cbn [Report.Executive Report.ID Report.Title Report.CreatedAt
         ExecutiveSummary.OverallHealth ExecutiveSummary.ComplianceScore
         ExecutiveSummary.RiskScore ExecutiveSummary.TopConcerns
         ExecutiveSummary.TopAchievements ExecutiveSummary.Recommendations
         ExecutiveSummary.ActionItems].
  rewrite numbered_section_loop, numbered_section_loop, numbered_section_loop.
  rewrite numbered_section_loop_last.
  unfold GenerateExecutiveReport, executive_head. cbv zeta.
  cbn [Report.set_Executive Report.Executive Report.ID Report.Title Report.CreatedAt
         ExecutiveSummary.OverallHealth ExecutiveSummary.ComplianceScore
         ExecutiveSummary.RiskScore ExecutiveSummary.TopConcerns
         ExecutiveSummary.TopAchievements ExecutiveSummary.Recommendations
         ExecutiveSummary.ActionItems List.length Nat.ltb Nat.leb].
  rewrite !FmtFacts.append_assoc. reflexivity.
Qed.

End RenderProps.

(** ** The text report of a collector and the command [report] *)

Module CliProps.



Lemma fold_AddMetric_head reportID r rest ms :
  Reporting.Report.ID r = reportID ->
  fold_left (fun g metric => Reporting.AddMetric g reportID metric) ms
    (Reporting.mkGenerator (r :: rest))
  = Reporting.mkGenerator
      (Reporting.Report.set_Metrics r (Reporting.Report.Metrics r ++ ms) :: rest).
Proof.
  revert r. induction ms as [|m ms IH]; intros r Hid; cbn [fold_left].
  - destruct r. unfold Reporting.Report.set_Metrics. cbn. rewrite app_nil_r. reflexivity.
  - unfold Reporting.AddMetric at 2. cbn [Reporting.reports Reporting.modify_first].
    rewrite Hid, String.eqb_refl.
    rewrite (IH (Reporting.Report.set_Metrics r (Reporting.Report.Metrics r ++ [m])))
      by exact Hid.
    unfold Reporting.Report.set_Metrics. cbn. rewrite <- app_assoc. reflexivity.
Qed.

Lemma fold_AddKPI_head {A : Type} (item : A -> Reporting.KPIData.t) reportID r rest
    (ks : list A) :
  Reporting.Report.ID r = reportID ->
  fold_left (fun g kpi => Reporting.AddKPI g reportID (item kpi)) ks
    (Reporting.mkGenerator (r :: rest))
  = Reporting.mkGenerator
      (Reporting.Report.set_KPIS r (Reporting.Report.KPIS r ++ map item ks) :: rest).
Proof.
  revert r. induction ks as [|k ks IH]; intros r Hid; cbn [fold_left map].
  - destruct r. unfold Reporting.Report.set_KPIS. cbn. rewrite app_nil_r. reflexivity.
  - unfold Reporting.AddKPI at 2. cbn [Reporting.reports Reporting.modify_first].
    rewrite Hid, String.eqb_refl.
    rewrite (IH (Reporting.Report.set_KPIS r (Reporting.Report.KPIS r ++ [item k])))
      by exact Hid.
    unfold Reporting.Report.set_KPIS. cbn. rewrite <- app_assoc. reflexivity.
Qed.

(** X23: the command [report] prints a rendering without any line item
    and with the health POOR and both scores 0, whatever the report type
    and the time: the executive and technical summaries are assigned to
    the report that [GenerateReport] returned, the line items go to the
    copy in the registry, and the report that is rendered is the former.
    A report type other than executive, technical and markdown is rendered
    as technical. *)
Theorem generateReport_prints_no_line_items (clock : Main.Clock) (reportType : string) :
  Main.generateReport clock reportType
  = ((("Generating " ++ reportType ++ " Report" ++ Fmt.nl) ++ Fmt.nl)
     ++ (if String.eqb reportType "executive"
         then Reporting.GenerateExecutiveReport (Main.printed_report clock)
         else if String.eqb reportType "technical"
              then Reporting.GenerateTechnicalReport (Main.printed_report clock)
              else if String.eqb reportType "markdown"
                   then Reporting.GenerateMarkdownReport (Main.printed_report clock)
                   else Reporting.GenerateTechnicalReport (Main.printed_report clock))
     ++ Fmt.nl,
     Reporting.mkGenerator [Main.stored_report clock])
  /\ Reporting.Report.Metrics (Main.printed_report clock) = []
  /\ Reporting.Report.KPIS (Main.printed_report clock) = []
  /\ List.length (Reporting.Report.Metrics (Main.stored_report clock)) = 4%nat
  /\ List.length (Reporting.Report.KPIS (Main.stored_report clock)) = 6%nat
  /\ Reporting.GenerateTechnicalReport (Main.printed_report clock)
     = "=== Technical Security Metrics Report ===" ++ Fmt.nl ++ Fmt.nl
       ++ "Report ID: rpt-" ++ Time.Format_compact (clock 12%nat) ++ Fmt.nl ++ Fmt.nl
       ++ "Technical Summary" ++ Fmt.nl
       ++ "=================" ++ Fmt.nl ++ Fmt.nl
       ++ "Metrics Covered: 6" ++ Fmt.nl
       ++ "KPIs Tracked: 6" ++ Fmt.nl
       ++ "Active Alerts: 12" ++ Fmt.nl
       ++ "Incidents (Last Month): 23" ++ Fmt.nl
       ++ "Open Vulnerabilities: 45" ++ Fmt.nl
       ++ "Compliance Status: COMPLIANT" ++ Fmt.nl
       ++ "Detection Rate: 95.0%" ++ Fmt.nl
       ++ "Response Time: 2.5 hours" ++ Fmt.nl ++ Fmt.nl.
Proof.
  split; [|repeat split;
             unfold Reporting.GenerateTechnicalReport, Main.printed_report; cbv zeta;
             cbn [Reporting.Report.ID Reporting.Report.Technical Reporting.Report.Metrics
                    Reporting.Report.KPIS List.length Nat.ltb Nat.leb];
             ReportingSpec.render_normalize; reflexivity].
  unfold Main.generateReport. cbv zeta.
  remember (fold_left (Main.add_kpi_step clock) Metrics.GetCommonKPIs
              (Metrics.NewMetricsCollector, 0%nat)) as p eqn:Hp.
  assert (Htick : snd p = 12%nat) by (subst p; reflexivity).
  assert (Hh : Metrics.MetricsSummary.OverallHealth (Metrics.GetSummary (fst p)) = "POOR")
    by (subst p; reflexivity).
  assert (Hc : Metrics.MetricsSummary.ComplianceScore (Metrics.GetSummary (fst p))
               = F64.zero) by (subst p; reflexivity).
  assert (Hr : Metrics.MetricsSummary.RiskScore (Metrics.GetSummary (fst p)) = F64.zero)
    by (subst p; reflexivity).
  clear Hp. destruct p as [collector tick]. cbn [fst snd] in *. subst tick.
  rewrite Hh, Hc, Hr.
  unfold Reporting.GenerateReport, Reporting.NewReportGenerator.
  cbn [Reporting.reports List.app].
  cbn [Reporting.Report.set_Executive Reporting.Report.set_Technical Reporting.Report.ID
         Reporting.Report.Title Reporting.Report.Description Reporting.Report.Format
         Reporting.Report.CreatedAt Reporting.Report.Metrics Reporting.Report.KPIS
         Reporting.Report.Executive Reporting.Report.Technical
         Reporting.Report.Recommendations].
  erewrite fold_AddMetric_head by reflexivity.
  erewrite (fold_AddKPI_head Main.kpi_line_item) by reflexivity.
  apply f_equal2; [|reflexivity].
  destruct (String.eqb reportType "executive"); [reflexivity|].
  destruct (String.eqb reportType "technical"), (String.eqb reportType "markdown");
    reflexivity.
Qed.

End CliProps.

(** ** The ids of reports and the clock *)

Module IdProps.

Lemma append_inj_length (a a' b b' : string) :
  String.length a = String.length a' -> a ++ b = a' ++ b' -> a = a' /\ b = b'.
Proof.
  revert a'. induction a as [|c a IH]; intros [|c' a'] Hlen H; cbn in Hlen;
    try discriminate.
  - split; [reflexivity|exact H].
  - cbn [append] in H. injection H as -> H. injection Hlen as Hlen.
    destruct (IH a' Hlen H) as [-> ->]. split; reflexivity.
Qed.

Lemma appendInt_ok_upto (width : nat) (bound : Z) :
  forallb (fun x => Nat.eqb (String.length (Time.appendInt x width)) width
                    && Z.eqb (Time.digits_value (Time.appendInt x width) 0) x)
    (map Z.of_nat (seq 0 (Z.to_nat bound))) = true ->
  forall x, (0 <= x < bound)%Z ->
  String.length (Time.appendInt x width) = width
  /\ Time.digits_value (Time.appendInt x width) 0 = x.
Proof.
  intros Hall x Hx. rewrite forallb_forall in Hall.
  specialize (Hall x). cbv beta in Hall.
  assert (Hin : In x (map Z.of_nat (seq 0 (Z.to_nat bound)))).
  { apply in_map_iff. exists (Z.to_nat x). split; [lia|]. apply in_seq. lia. }
  apply Hall in Hin. apply andb_true_iff in Hin. destruct Hin as [Hl Hv].
  split; [apply Nat.eqb_eq, Hl|apply Z.eqb_eq, Hv].
Qed.

Lemma appendInt4_ok x : (0 <= x < 10000)%Z ->
  String.length (Time.appendInt x 4) = 4%nat
  /\ Time.digits_value (Time.appendInt x 4) 0 = x.
Proof.
  intros Hx. apply (appendInt_ok_upto 4 10000); [vm_compute; reflexivity|lia].
Qed.

Lemma appendInt2_ok x : (0 <= x < 100)%Z ->
  String.length (Time.appendInt x 2) = 2%nat
  /\ Time.digits_value (Time.appendInt x 2) 0 = x.
Proof.
  intros Hx. apply (appendInt_ok_upto 2 100); [vm_compute; reflexivity|lia].
Qed.

Lemma appendInt4_inj x y : (0 <= x < 10000)%Z -> (0 <= y < 10000)%Z ->
  Time.appendInt x 4 = Time.appendInt y 4 -> x = y.
Proof.
  intros Hx Hy H. rewrite <- (proj2 (appendInt4_ok x Hx)), <- (proj2 (appendInt4_ok y Hy)), H.
  reflexivity.
Qed.

Lemma appendInt2_inj x y : (0 <= x < 100)%Z -> (0 <= y < 100)%Z ->
  Time.appendInt x 2 = Time.appendInt y 2 -> x = y.
Proof.
  intros Hx Hy H. rewrite <- (proj2 (appendInt2_ok x Hx)), <- (proj2 (appendInt2_ok y Hy)), H.
  reflexivity.
Qed.

Lemma Format_compact_inj a b :
  Time.in_calendar_range a -> Time.in_calendar_range b ->
  Time.Format_compact a = Time.Format_compact b -> Time.to_second a = Time.to_second b.
Proof.
  intros (Hya & Hma & Hda & Hha & Hna & Hsa) (Hyb & Hmb & Hdb & Hhb & Hnb & Hsb) H.
  unfold Time.Format_compact in H.
  apply append_inj_length in H;
    [|rewrite (proj1 (appendInt4_ok _ Hya)), (proj1 (appendInt4_ok _ Hyb)); reflexivity].
  destruct H as [Hy H]. apply appendInt4_inj in Hy; try assumption.
  apply append_inj_length in H;
    [|rewrite (proj1 (appendInt2_ok (Time.Month a) ltac:(lia))),
              (proj1 (appendInt2_ok (Time.Month b) ltac:(lia))); reflexivity].
  destruct H as [Hm H]. apply appendInt2_inj in Hm; try lia.
  apply append_inj_length in H;
    [|rewrite (proj1 (appendInt2_ok (Time.Day a) ltac:(lia))),
              (proj1 (appendInt2_ok (Time.Day b) ltac:(lia))); reflexivity].
  destruct H as [Hd H]. apply appendInt2_inj in Hd; try lia.
  apply append_inj_length in H;
    [|rewrite (proj1 (appendInt2_ok (Time.Hour a) ltac:(lia))),
              (proj1 (appendInt2_ok (Time.Hour b) ltac:(lia))); reflexivity].
  destruct H as [Hh H]. apply appendInt2_inj in Hh; try lia.
  apply append_inj_length in H;
    [|rewrite (proj1 (appendInt2_ok (Time.Minute a) ltac:(lia))),
              (proj1 (appendInt2_ok (Time.Minute b) ltac:(lia))); reflexivity].
  destruct H as [Hn Hs]. apply appendInt2_inj in Hn; try lia.
  apply appendInt2_inj in Hs; try lia.
  unfold Time.to_second. congruence.
Qed.

(** X24: two reports get the same id exactly when the clock showed the
    same calendar date and time to the second at their creation (for years
    of at most four digits), whatever their titles, formats and
    generators. *)
Theorem same_id_iff_same_second (g1 g2 : Reporting.ReportGenerator)
    (title1 title2 description1 description2 : string)
    (format1 format2 : Reporting.ReportFormat) (now1 now1' now2 now2' : Time.t) :
  Time.in_calendar_range now1 -> Time.in_calendar_range now2 ->
  (Reporting.Report.ID
     (snd (Reporting.GenerateReport g1 title1 description1 format1 now1 now1'))
   = Reporting.Report.ID
       (snd (Reporting.GenerateReport g2 title2 description2 format2 now2 now2'))
   <-> Time.to_second now1 = Time.to_second now2).
Proof.
  intros H1 H2. unfold Reporting.GenerateReport. cbn [snd Reporting.Report.ID]. split.
  - intros H. cbn [append] in H. injection H as H.
    apply Format_compact_inj; assumption.
  - intros H. unfold Time.to_second in H. injection H as Hy Hm Hd Hh Hn Hs.
    unfold Time.Format_compact. rewrite Hy, Hm, Hd, Hh, Hn, Hs. reflexivity.
Qed.

Lemma same_id_iff_same_second_witness :
  Reporting.Report.ID
    (snd (Reporting.GenerateReport Reporting.NewReportGenerator "A" "" Reporting.FormatCSV
            Reporting.sample_time Reporting.sample_time))
  = Reporting.Report.ID
      (snd (Reporting.GenerateReport Reporting.NewReportGenerator "B" ""
              Reporting.FormatHTML Reporting.sample_time_later Reporting.sample_time)).
Proof.
  apply (proj2 (same_id_iff_same_second Reporting.NewReportGenerator
                  Reporting.NewReportGenerator "A" "B" "" "" Reporting.FormatCSV
                  Reporting.FormatHTML Reporting.sample_time Reporting.sample_time
                  Reporting.sample_time_later Reporting.sample_time
                  ltac:(unfold Time.in_calendar_range; cbn; lia)
                  ltac:(unfold Time.in_calendar_range; cbn; lia))).
  reflexivity.
Defined.

End IdProps.
